(** * OpenCopilot backend: streaming chat use case, prompt utilities, token issuance

    Shallow embedding of
      - [src/domain/chat/utils.py]
      - [src/domain/chat/on_user_message_streaming_use_case.py]
      - [src/authorization/create_access_token.py]
    and the properties of their specification. *)

From Stdlib Require Import String Ascii List ZArith Bool Arith Lia PrimFloat.
Import ListNotations.

Local Open Scope list_scope.
Local Open Scope string_scope.

(** ** Python [str] operations used by the sources *)

Module PyStr.

(** [s.startswith(p)] *)
Fixpoint startswith (p s : string) : bool :=
  match p, s with
  | EmptyString, _ => true
  | String a p', String b s' => Ascii.eqb a b && startswith p' s'
  | String _ _, EmptyString => false
  end.

(** [s[n:]] and [s[:n]] *)
Fixpoint drop (n : nat) (s : string) : string :=
  match n, s with
  | O, _ => s
  | S k, String _ s' => drop k s'
  | S _, EmptyString => EmptyString
  end.

Fixpoint take (n : nat) (s : string) : string :=
  match n, s with
  | O, _ => EmptyString
  | S k, String c s' => String c (take k s')
  | S _, EmptyString => EmptyString
  end.

(** [s.find(sub)]: lowest index where [sub] occurs, [None] for Python's -1. *)
Fixpoint find (sub s : string) : option nat :=
  if startswith sub s then Some O
  else match s with
       | EmptyString => None
       | String _ s' => option_map S (find sub s')
       end.

(** [sub in s] *)
Definition contains (sub s : string) : bool :=
  match find sub s with Some _ => true | None => false end.

(** The optional third argument of [str.replace]: [None] when omitted
    (every occurrence), [Some n] for at most [n] replacements. *)
Definition may_replace (count : option nat) : bool :=
  match count with Some O => false | _ => true end.

Definition used_one (count : option nat) : option nat :=
  match count with Some n => Some (Nat.pred n) | None => None end.

(** Replacement of a non-empty [old], scanning left to right over
    non-overlapping occurrences.  [skip] counts the characters of a matched
    occurrence still to be passed over. *)
Fixpoint replace_scan (old new : string) (count : option nat) (skip : nat)
         (s : string) : string :=
  match s with
  | EmptyString => EmptyString
  | String c s' =>
      match skip with
      | S k => replace_scan old new count k s'
      | O =>
          if may_replace count && startswith old s
          then new ++ replace_scan old new (used_one count) (Nat.pred (String.length old)) s'
          else String c (replace_scan old new count O s')
      end
  end.

(** With an empty [old], Python inserts [new] before every character and at
    the end, as long as the count allows. *)
Fixpoint replace_empty (new : string) (count : option nat) (s : string) : string :=
  if may_replace count then
    match s with
    | EmptyString => new
    | String c s' => new ++ String c (replace_empty new (used_one count) s')
    end
  else s.

(** [s.replace(old, new)] is [replace s old new None];
    [s.replace(old, new, n)] is [replace s old new (Some n)]. *)
Definition replace (s old new : string) (count : option nat) : string :=
  match old with
  | EmptyString => replace_empty new count s
  | String _ _ => replace_scan old new count O s
  end.

(** Every occurrence of the character [c] replaced by [new]. *)
Fixpoint subst_char (c : ascii) (new s : string) : string :=
  match s with
  | EmptyString => EmptyString
  | String a s' =>
      if Ascii.eqb c a then new ++ subst_char c new s'
      else String a (subst_char c new s')
  end.

End PyStr.

(** ** Python values, exceptions, configuration *)

(** A raised exception: [type(exc).__name__] and [str(exc)].  The values of
    this type are the instances of Python's [Exception] class, the ones an
    [except Exception] clause intercepts. *)
Record exn : Type := Exn { exn_type : string; exn_str : string }.

(** What a statement can raise: an instance of [Exception], or an instance of
    [BaseException] outside [Exception] ([asyncio.CancelledError] since
    Python 3.8, [GeneratorExit], [KeyboardInterrupt]), with its type name and
    text, which an [except Exception] clause lets pass.  The calls the
    sources make synchronously ([json.loads], [os.makedirs], [open], the
    repositories) raise the former; the latter is thrown into a coroutine
    where it awaits. *)
Inductive raised : Type :=
| Ordinary (e : exn)
| BaseOnly (type_name : string) (str : string).

Coercion Ordinary : exn >-> raised.

(** An [exn] written where a [raised] is expected, also inside [inl], [Some]
    and a tuple, stands for [Ordinary] of it. *)
Arguments inl {A B} & _.
Arguments Some {A} & _.
Arguments pair {A B} & _ _.

(** The result of a synchronous call as what the caller sees. *)
Definition raising {A : Type} (r : exn + A) : raised + A :=
  match r with
  | inl e => inl (Ordinary e)
  | inr a => inr a
  end.

(** The values [json.loads] can produce.  A [dict] is kept as an association
    list read from the front. *)
#[warnings="-register-all"]
Inductive pyval : Type :=
| PNone
| PBool (b : bool)
| PInt (n : Z)
| PFloat (f : float)
| PStr (s : string)
| PList (l : list pyval)
| PDict (d : list (string * pyval)).

(** Truth value of an object, as tested by [if]. *)
Definition truthy (v : pyval) : bool :=
  match v with
  | PNone => false
  | PBool b => b
  | PInt n => negb (n =? 0)%Z
  | PFloat f => negb (PrimFloat.eqb f 0%float)
  | PStr s => negb (s =? "")
  | PList l => match l with [] => false | _ :: _ => true end
  | PDict d => match d with [] => false | _ :: _ => true end
  end.

Fixpoint dict_lookup (d : list (string * pyval)) (key : string) : option pyval :=
  match d with
  | [] => None
  | (k, v) :: d' => if k =? key then Some v else dict_lookup d' key
  end.


(** [d.get(key)] on a dict: the value, or [None] when the key is absent. *)
Definition dict_get (d : list (string * pyval)) (key : string) : pyval :=
  match dict_lookup d key with Some v => v | None => PNone end.

(** [type(v).__name__] *)
Definition py_type_name (v : pyval) : string :=
  match v with
  | PNone => "NoneType"
  | PBool _ => "bool"
  | PInt _ => "int"
  | PFloat _ => "float"
  | PStr _ => "str"
  | PList _ => "list"
  | PDict _ => "dict"
  end.

(** [obj.get(key)]: as above on a dict; any other JSON value has no attribute
    [get]. *)
Definition py_get (obj : pyval) (key : string) : exn + pyval :=
  match obj with
  | PDict d => inr (dict_get d key)
  | _ => inl (Exn "AttributeError"
                  ("'" ++ py_type_name obj ++ "' object has no attribute 'get'"))
  end.

Definition UUID : Type := N.

(** The options of the [settings] module read by the three sources.
    [UNITY_COPILOT_URL] is [None] when the option is unset;
    [JWT_TOKEN_EXPIRATION_SECONDS] is held as the double it is added to
    [time.time()] as. *)
Record Settings : Type := {
  JWT_CLIENT_ID : string;
  JWT_CLIENT_SECRET : string;
  JWT_TOKEN_EXPIRATION_SECONDS : float;
  MAX_CONTEXT_DOCUMENTS_COUNT : Z;
  PROMPT_HISTORY_INCLUDED_COUNT : Z;
  CONVERSATIONS_DIR : string;
  PROMPTS_DIRECTORY : string;
  UNITY_COPILOT_URL : option string
}.

(** [if settings.UNITY_COPILOT_URL:] *)
Definition url_truthy (u : option string) : bool :=
  match u with
  | None => false
  | Some s => negb (s =? "")
  end.

(** ** Entities and collaborators *)

(** Modelled from the spec: [src/domain/chat/entities.py] is not part of the
    sources; the records carry the fields the spec lists and the use case
    passes. *)
Record UserMessageInput : Type := {
  chat_id : UUID;
  message : string;
  response_message_id : UUID
}.

(** Modelled from the spec: the opaque status payload built by
    [LoadingMessage.from_dict]. *)
Record LoadingMessage : Type := { loading_payload : pyval }.

(** Modelled from the spec: [StreamingChunk]; [loading_message] and [error]
    are optional and absent unless given. *)
Record StreamingChunk : Type := {
  chunk_chat_id : UUID;
  text : pyval;
  sources : list pyval;
  loading_message : option LoadingMessage;
  error : option string
}.

(** [langchain.schema.Document] *)
Record Document : Type := { page_content : string; metadata : pyval }.

(** [DocumentStore.find(query, k)] *)
Record DocumentStore : Type := {
  store_find : string -> Z -> exn + list Document
}.

(** [ConversationHistoryRepositoryLocal.get_prompt_history(chat_id, count)];
    [save_history] only acts on the outside and is recorded as an event. *)
Record ConversationHistoryRepositoryLocal : Type := {
  get_prompt_history : UUID -> Z -> exn + string
}.

(** ** Observable actions and the monad of the embedding *)

Inductive event : Type :=
| Makedirs (path : string)
| GetPromptHistory (cid : UUID) (count : Z)
| OpenRead (path : string)
| Find (query : string) (k : Z)
| Yield (c : StreamingChunk)
| LogError (msg : string)
| ValidateUrls (result : string) (cid : UUID)
| SaveHistory (input output : string) (request_ts response_ts : float)
              (cid mid : UUID).

(** A computation over local variables [S]: the actions performed, the locals
    afterwards, and either what was raised or the value. *)
Definition M (S A : Type) : Type := S -> list event * S * (raised + A).

Section Monad.
Context {S : Type}.

Definition ret {A} (a : A) : M S A := fun s => ([], s, inr a).

Definition bind {A B} (m : M S A) (k : A -> M S B) : M S B :=
  fun s =>
    match m s with
    | (evs, s', inl e) => (evs, s', inl e)
    | (evs, s', inr a) =>
        let '(evs2, s'', r) := k a s' in ((evs ++ evs2)%list, s'', r)
    end.

Definition raise {A} (e : raised) : M S A := fun s => ([], s, inl e).

(** A call of a collaborator: recorded, and it returns or raises. *)
Definition call {A} (ev : event) (r : exn + A) : M S A :=
  fun s => ([ev], s, raising r).

(** An action that only acts on the outside. *)
Definition emit (ev : event) : M S unit := fun s => ([ev], s, inr tt).

(** A pure operation that may raise. *)
Definition lift {A} (r : exn + A) : M S A := fun s => ([], s, raising r).

(** [await]: the awaited value, or what is raised at that point. *)
Definition await {A} (r : raised + A) : M S A := fun s => ([], s, r).

Definition get : M S S := fun s => ([], s, inr s).
Definition put (s : S) : M S unit := fun _ => ([], s, inr tt).

(** [try: body  except Exception as exc: handler exc]: only an instance of
    [Exception] reaches the handler. *)
Definition try_except (body : M S unit) (handler : exn -> M S unit) : M S unit :=
  fun s =>
    match body s with
    | (evs, s', inl (Ordinary e)) =>
        let '(evs2, s'', r) := handler e s' in ((evs ++ evs2)%list, s'', r)
    | done => done
    end.

(** [try: body  finally: fin]: [fin] runs whichever way [body] ends; what
    [body] raised is raised again unless [fin] raises itself. *)
Definition try_finally {A} (body : M S A) (fin : M S unit) : M S A :=
  fun s =>
    let '(evs, s', r) := body s in
    let '(evs2, s'', r2) := fin s' in
    ((evs ++ evs2)%list, s'',
     match r2 with inl e => inl e | inr _ => r end).

(** [async for x in channel: body x] over a channel that delivers [items]
    and then is exhausted ([None]) or raises. *)
Fixpoint async_for (items : list string) (ending : option raised)
         (body : string -> M S unit) : M S unit :=
  match items with
  | [] => match ending with None => ret tt | Some e => raise e end
  | x :: rest => bind (body x) (fun _ => async_for rest ending body)
  end.
End Monad.

Notation "x <- c1 ;; c2" := (bind c1 (fun x => c2))
  (at level 61, c1 at next level, right associativity).
Notation "c1 ;; c2" := (bind c1 (fun _ => c2))
  (at level 61, right associativity).

Definition trace {S A} (r : list event * S * (raised + A)) : list event := fst (fst r).
Definition locals {S A} (r : list event * S * (raised + A)) : S := snd (fst r).
Definition outcome {S A} (r : list event * S * (raised + A)) : raised + A := snd r.

(** ** [src/domain/chat/utils.py] *)

Module utils.

Record History : Type := {
  template_with_history : string;
  formatted_history : string
}.

Section Utils.
Variable settings : Settings.
(** [os.makedirs(path, exist_ok=True)], [os.path.join] and
    [open(path, "r").read()] *)
Variable os_makedirs : string -> exn + unit.
Variable os_path_join : string -> string -> string.
Variable open_read : string -> exn + string.
Context {S : Type}.

Definition add_history (template : string) (chat_id : UUID)
           (history_repository : ConversationHistoryRepositoryLocal) : M S History :=
  call (Makedirs (CONVERSATIONS_DIR settings))
       (os_makedirs (CONVERSATIONS_DIR settings)) ;;
  history <- call (GetPromptHistory chat_id (PROMPT_HISTORY_INCLUDED_COUNT settings))
                  (get_prompt_history history_repository chat_id
                     (PROMPT_HISTORY_INCLUDED_COUNT settings)) ;;
  let history := PyStr.replace (PyStr.replace history "{" "{{" None) "}" "}}" None in
  ret {| template_with_history := PyStr.replace template "{history}" history (Some 1);
         formatted_history := history |}.

(** The default of [prompt_directory] is [settings.PROMPTS_DIRECTORY];
    callers that omit the argument pass that value. *)
Definition get_system_message (prompt_directory : string) : M S string :=
  let file_path :=
    if negb (prompt_directory =? PROMPTS_DIRECTORY settings)
    then os_path_join prompt_directory "prompt_template.txt"
    else if url_truthy (UNITY_COPILOT_URL settings)
    then os_path_join (PROMPTS_DIRECTORY settings) "prompt_template_with_unity.txt"
    else os_path_join prompt_directory "prompt_template.txt" in
  call (OpenRead file_path) (open_read file_path).

Definition get_function_system_message : M S string :=
  let file_path :=
    os_path_join (PROMPTS_DIRECTORY settings) "prompt_template_unity_function.txt" in
  call (OpenRead file_path) (open_read file_path).

Definition get_unity_communication_prompt (domain_input : UserMessageInput)
           (history_repository : ConversationHistoryRepositoryLocal)
  : M S (option string) :=
  if url_truthy (UNITY_COPILOT_URL settings) then
    template <- get_function_system_message ;;
    unity_history <- add_history template (chat_id domain_input) history_repository ;;
    ret (Some (PyStr.replace (template_with_history unity_history)
                             "{question}" (message domain_input) (Some 1)))
  else ret None.
End Utils.

(** The escaping the specification describes: every brace doubled. *)
Fixpoint escape_braces (s : string) : string :=
  match s with
  | EmptyString => EmptyString
  | String c s' =>
      if Ascii.eqb c "{"%char then String c (String c (escape_braces s'))
      else if Ascii.eqb c "}"%char then String c (String c (escape_braces s'))
      else String c (escape_braces s')
  end.

End utils.

(** ** [src/domain/chat/on_user_message_streaming_use_case.py] *)

Module on_user_message_streaming_use_case.

(** What the background task [get_gpt_result_use_case.execute] does, as its
    consumer observes it: the items its callback channel delivers, how the
    channel ends (exhausted, or an exception out of [callback.aiter()]), and
    what [await task] gives. *)
Record TaskRun : Type := {
  callback_items : list string;
  callback_ending : option raised;
  task_result : raised + string
}.

Section UseCase.
Variable settings : Settings.
Variable os_makedirs : string -> exn + unit.
Variable os_path_join : string -> string -> string.
Variable open_read : string -> exn + string.
(** [json.loads] and [LoadingMessage.from_dict] *)
Variable json_loads : string -> exn + pyval.
Variable LoadingMessage_from_dict : pyval -> exn + LoadingMessage.
(** [datetime.now().timestamp()], by the number of earlier readings *)
Variable datetime_now : nat -> float.
Variable get_gpt_result :
  UserMessageInput -> string -> list Document -> option string -> TaskRun.

Definition _get_context {S} (domain_input : UserMessageInput)
           (system_message : string) (document_store : DocumentStore)
  : M S (list Document) :=
  let context : list Document := [] in
  if PyStr.contains "{context}" system_message then
    let context : list Document := [] in
    let k := (MAX_CONTEXT_DOCUMENTS_COUNT settings - Z.of_nat (List.length context))%Z in
    found <- call (Find (message domain_input) k)
                  (store_find document_store (message domain_input) k) ;;
    ret (context ++ found)%list
  else ret context.

(** The body of the [async for] loop, lines 63 to 76. *)
Definition on_callback_result (domain_input : UserMessageInput)
           (callback_result : string) : M string unit :=
  parsed <- lift (json_loads callback_result) ;;
  token <- lift (py_get parsed "token") ;;
  (if truthy token then
     emit (Yield {| chunk_chat_id := chat_id domain_input;
                    text := token;
                    sources := [];
                    loading_message := None;
                    error := None |})
   else ret tt) ;;
  loading_message <- lift (py_get parsed "loading_message") ;;
  if truthy loading_message then
    parsed_message <- lift (LoadingMessage_from_dict loading_message) ;;
    emit (Yield {| chunk_chat_id := chat_id domain_input;
                   text := PStr "";
                   sources := [];
                   loading_message := Some parsed_message;
                   error := None |})
  else ret tt.

(** Lines 62 to 78; the local variable [result] is the state. *)
Definition try_body (domain_input : UserMessageInput) (task : TaskRun)
  : M string unit :=
  async_for (callback_items task) (callback_ending task)
            (on_callback_result domain_input) ;;
  task_value <- await (task_result task) ;;
  put task_value.

Definition error_chunk (domain_input : UserMessageInput) (exc : exn)
  : StreamingChunk :=
  {| chunk_chat_id := chat_id domain_input;
     text := PStr "";
     sources := [];
     loading_message := None;
     error := Some ("OpenAI error: " ++ exn_type exc) |}.

(** Lines 79 to 86. *)
Definition except_handler (domain_input : UserMessageInput) (exc : exn)
  : M string unit :=
  emit (LogError ("Stream error: " ++ exn_str exc)) ;;
  emit (Yield (error_chunk domain_input exc)).

(** Lines 87 to 99. *)
Definition finally_block (domain_input : UserMessageInput)
           (message_timestamp : float) : M string unit :=
  result <- get ;;
  emit (ValidateUrls result (chat_id domain_input)) ;;
  let response_timestamp := datetime_now 1 in
  result <- get ;;
  emit (SaveHistory (message domain_input) result message_timestamp
                    response_timestamp (chat_id domain_input)
                    (response_message_id domain_input)).

(** Lines 60 to 99. *)
Definition streaming (domain_input : UserMessageInput)
           (message_timestamp : float) (task : TaskRun) : M string unit :=
  put "" ;;
  try_finally
    (try_except (try_body domain_input task) (except_handler domain_input))
    (finally_block domain_input message_timestamp).

(** Lines 35 to 58. *)
Definition prelude (domain_input : UserMessageInput)
           (document_store : DocumentStore)
           (history_repository : ConversationHistoryRepositoryLocal)
  : M string (float * TaskRun) :=
  system_message <-
    utils.get_system_message settings os_path_join open_read
                             (PROMPTS_DIRECTORY settings) ;;
  context <- _get_context domain_input system_message document_store ;;
  let message_timestamp := datetime_now 0 in
  unity_communication_prompt <-
    utils.get_unity_communication_prompt settings os_makedirs os_path_join
                                         open_read domain_input
                                         history_repository ;;
  let task := get_gpt_result domain_input system_message context
                             unity_communication_prompt in
  ret (message_timestamp, task).

Definition execute (domain_input : UserMessageInput)
           (document_store : DocumentStore)
           (history_repository : ConversationHistoryRepositoryLocal)
  : M string unit :=
  started <- prelude domain_input document_store history_repository ;;
  streaming domain_input (fst started) (snd started).
End UseCase.

(** The two chunks of lines 65 and 71. *)
Definition token_chunk (domain_input : UserMessageInput) (token : pyval)
  : StreamingChunk :=
  {| chunk_chat_id := chat_id domain_input;
     text := token;
     sources := [];
     loading_message := None;
     error := None |}.

Definition loading_chunk (domain_input : UserMessageInput)
           (parsed_message : LoadingMessage) : StreamingChunk :=
  {| chunk_chat_id := chat_id domain_input;
     text := PStr "";
     sources := [];
     loading_message := Some parsed_message;
     error := None |}.

(** The two calls of lines 88 to 99 for a [result], the second timestamp
    being the one read in between. *)
Definition finalization (d : UserMessageInput)
           (message_timestamp response_timestamp : float)
           (result : string) : list event :=
  [ValidateUrls result (chat_id d);
   SaveHistory (message d) result message_timestamp response_timestamp
               (chat_id d) (response_message_id d)].

(** The chunks the caller of the generator receives, in order. *)
Fixpoint yielded (t : list event) : list StreamingChunk :=
  match t with
  | [] => []
  | Yield c :: t' => c :: yielded t'
  | _ :: t' => yielded t'
  end.

Definition is_validate_urls (ev : event) : bool :=
  match ev with ValidateUrls _ _ => true | _ => false end.

Definition is_save_history (ev : event) : bool :=
  match ev with SaveHistory _ _ _ _ _ _ => true | _ => false end.

Definition is_yield (ev : event) : bool :=
  match ev with Yield _ => true | _ => false end.

Definition not_finalization (ev : event) : bool :=
  negb (is_validate_urls ev || is_save_history ev).

Definition times (p : event -> bool) (t : list event) : nat :=
  List.length (filter p t).

End on_user_message_streaming_use_case.

(** ** [src/authorization/create_access_token.py] *)

Module create_access_token.

Record Payload : Type := { iat : float; exp : float; sub : string }.

(** [error_responses.InvalidCredentialsAPIError], raised without arguments. *)
Definition InvalidCredentialsAPIError : exn := Exn "InvalidCredentialsAPIError" "".

Section Token.
Variable settings : Settings.
(** [time.time()], by the number of earlier readings, and
    [jwt.encode(payload, key, algorithm=...)] *)
Variable time_time : nat -> float.
Variable jwt_encode : Payload -> string -> string -> string.

Definition execute (client_id client_secret user_id : string) : exn + string :=
  if negb (client_id =? JWT_CLIENT_ID settings)
     || negb (client_secret =? JWT_CLIENT_SECRET settings)
  then inl InvalidCredentialsAPIError
  else
    let payload :=
      {| iat := PrimFloat.sub (time_time 0) 100%float;
         exp := PrimFloat.add (time_time 1) (JWT_TOKEN_EXPIRATION_SECONDS settings);
         sub := user_id |} in
    inr (jwt_encode payload (JWT_CLIENT_SECRET settings) "HS256").
End Token.

End create_access_token.

(** ** Concrete collaborators for the examples *)

Module Samples.

Definition settings_with_unity : Settings :=
  {| JWT_CLIENT_ID := "client";
     JWT_CLIENT_SECRET := "secret";
     JWT_TOKEN_EXPIRATION_SECONDS := 3600%float;
     MAX_CONTEXT_DOCUMENTS_COUNT := 4%Z;
     PROMPT_HISTORY_INCLUDED_COUNT := 5%Z;
     CONVERSATIONS_DIR := "conversations";
     PROMPTS_DIRECTORY := "prompts";
     UNITY_COPILOT_URL := Some "http://localhost:3000" |}.

Definition settings_without_unity : Settings :=
  {| JWT_CLIENT_ID := "client";
     JWT_CLIENT_SECRET := "secret";
     JWT_TOKEN_EXPIRATION_SECONDS := 3600%float;
     MAX_CONTEXT_DOCUMENTS_COUNT := 4%Z;
     PROMPT_HISTORY_INCLUDED_COUNT := 5%Z;
     CONVERSATIONS_DIR := "conversations";
     PROMPTS_DIRECTORY := "prompts";
     UNITY_COPILOT_URL := None |}.

Definition os_makedirs (path : string) : exn + unit := inr tt.

Definition os_path_join (a b : string) : string := a ++ "/" ++ b.

Definition open_read (path : string) : exn + string :=
  if path =? "prompts/prompt_template_unity_function.txt"
  then inr "Q: {question} H: {history} Again: {question}"
  else if path =? "prompts/prompt_template.txt"
  then inr "Use {context}. So far: {history}"
  else if path =? "prompts/prompt_template_with_unity.txt"
  then inr "Unity. So far: {history}"
  else inl (Exn "FileNotFoundError"
                ("[Errno 2] No such file or directory: '" ++ path ++ "'")).

Definition history_with_braces : ConversationHistoryRepositoryLocal :=
  {| get_prompt_history := fun _ _ => inr "User: {a}" |}.

Definition history_empty : ConversationHistoryRepositoryLocal :=
  {| get_prompt_history := fun _ _ => inr "" |}.

Definition input_hello : UserMessageInput :=
  {| chat_id := 7%N; message := "hello"; response_message_id := 8%N |}.


Definition document_store : DocumentStore :=
  {| store_find := fun query k =>
       inr [ {| page_content := "first"; metadata := PNone |};
             {| page_content := "second"; metadata := PNone |} ] |}.

(** JSON text of channel items; [dq] is the double quote. *)
Definition dq : string := String (ascii_of_nat 34) "".

Definition json_key (k : string) : string := dq ++ k ++ dq ++ ": ".

Definition json_string (v : string) : string := dq ++ v ++ dq.

Definition item_token (t : string) : string :=
  "{" ++ json_key "token" ++ json_string t ++ "}".

Definition item_loading (m : string) : string :=
  "{" ++ json_key "loading_message" ++ "{" ++ json_key "message" ++ json_string m ++ "}}".

Definition item_token_and_loading (t m : string) : string :=
  "{" ++ json_key "token" ++ json_string t ++ ", "
      ++ json_key "loading_message" ++ "{" ++ json_key "message" ++ json_string m ++ "}}".

(** [json.loads] on the items used below. *)
Definition json_loads (raw : string) : exn + pyval :=
  if raw =? item_token "Hi" then inr (PDict [("token", PStr "Hi")])
  else if raw =? item_token " there" then inr (PDict [("token", PStr " there")])
  else if raw =? item_token "" then inr (PDict [("token", PStr "")])
  else if raw =? item_loading "Thinking" then
    inr (PDict [("loading_message", PDict [("message", PStr "Thinking")])])
  else if raw =? item_token_and_loading "Hi" "Thinking" then
    inr (PDict [("token", PStr "Hi");
                ("loading_message", PDict [("message", PStr "Thinking")])])
  else if raw =? item_token_and_loading "" "Thinking" then
    inr (PDict [("token", PStr "");
                ("loading_message", PDict [("message", PStr "Thinking")])])
  else if raw =? "[]" then inr (PList [])
  else inl (Exn "JSONDecodeError" "Expecting value: line 1 column 1 (char 0)").

Definition LoadingMessage_from_dict (v : pyval) : exn + LoadingMessage :=
  match v with
  | PDict _ => inr {| loading_payload := v |}
  | _ => inl (Exn "TypeError" "not a mapping")
  end.

Definition datetime_now (n : nat) : float :=
  match n with O => 1700000000%float | _ => 1700000003%float end.

Import on_user_message_streaming_use_case.

(** Scenario C: two tokens, then the task returns the full text. *)
Definition run_hi_there : TaskRun :=
  {| callback_items := [item_token "Hi"; item_token " there"];
     callback_ending := None;
     task_result := inr "Hi there" |}.

(** Scenario D: one token, then the channel raises. *)
Definition run_channel_breaks : TaskRun :=
  {| callback_items := [item_token "Hi"];
     callback_ending := Some (Exn "APIError" "connection lost");
     task_result := inl (Exn "APIError" "connection lost") |}.

(** The channel is drained, then the task fails when awaited. *)
Definition run_task_fails : TaskRun :=
  {| callback_items := [item_token "Hi"];
     callback_ending := None;
     task_result := inl (Exn "RateLimitError" "quota") |}.

(** An item that is not JSON. *)
Definition run_bad_item : TaskRun :=
  {| callback_items := [item_token "Hi"; "oops"; item_token " there"];
     callback_ending := None;
     task_result := inr "Hi there" |}.

Definition time_time (n : nat) : float :=
  match n with O => 1700000000%float | _ => 1700000001%float end.

Definition jwt_encode (p : create_access_token.Payload) (key alg : string) : string :=
  alg ++ "." ++ create_access_token.sub p ++ "." ++ key.

End Samples.

(** ** Further observations and collaborators *)

Module Observed.

Definition is_find (ev : event) : bool :=
  match ev with Find _ _ => true | _ => false end.

Definition no_yield (ev : event) : bool :=
  match ev with Yield _ => false | _ => true end.

Definition no_find (ev : event) : bool :=
  match ev with Find _ _ => false | _ => true end.

(** [isinstance(v, dict)] *)
Definition is_dict (v : pyval) : bool :=
  match v with PDict _ => true | _ => false end.

End Observed.

Module MoreSamples.

Definition os_makedirs_denied (path : string) : exn + unit :=
  inl (Exn "PermissionError" ("[Errno 13] Permission denied: '" ++ path ++ "'")).

Definition open_read_missing (path : string) : exn + string :=
  inl (Exn "FileNotFoundError"
           ("[Errno 2] No such file or directory: '" ++ path ++ "'")).

Definition history_unreadable : ConversationHistoryRepositoryLocal :=
  {| get_prompt_history := fun _ _ => inl (Exn "OSError" "history") |}.

Definition history_with_placeholder : ConversationHistoryRepositoryLocal :=
  {| get_prompt_history := fun _ _ => inr "User: what is {question}?" |}.

Definition history_plain : ConversationHistoryRepositoryLocal :=
  {| get_prompt_history := fun _ _ => inr "User: hi" |}.

(** A [from_dict] that accepts nothing. *)
Definition LoadingMessage_from_dict_strict (v : pyval) : exn + LoadingMessage :=
  inl (Exn "KeyError" "'status'").

Import on_user_message_streaming_use_case.

Definition run_list_item : TaskRun :=
  {| callback_items := ["[]"; Samples.item_token "Hi"];
     callback_ending := None;
     task_result := inr "Hi" |}.

Definition run_bad_item_short : TaskRun :=
  {| callback_items := [Samples.item_token "Hi"; "oops"];
     callback_ending := Some (Exn "APIError" "connection lost");
     task_result := inl (Exn "APIError" "connection lost") |}.

Definition run_rejected_loading : TaskRun :=
  {| callback_items := [Samples.item_token_and_loading "Hi" "Thinking"];
     callback_ending := None;
     task_result := inr "Hi" |}.

(** One token, the channel ends, and the awaiting consumer is cancelled:
    [await task] raises [asyncio.CancelledError]. *)
Definition run_cancelled : TaskRun :=
  {| callback_items := [Samples.item_token "Hi"];
     callback_ending := None;
     task_result := inl (BaseOnly "CancelledError" "") |}.


Definition run_silent : TaskRun :=
  {| callback_items := [];
     callback_ending := None;
     task_result := inr "Hi there" |}.

End MoreSamples.

(** * Properties *)

Example replace_all_ex : PyStr.replace "a{b}{" "{" "{{" None = "a{{b}{{".
Proof. reflexivity. Qed.
Example replace_first_ex : PyStr.replace "x{q}y{q}" "{q}" "hello" (Some 1) = "xhelloy{q}".
Proof. reflexivity. Qed.
Example replace_overlap_ex : PyStr.replace "aaaa" "aa" "b" None = "bb".
Proof. reflexivity. Qed.
Example replace_overlap_ex2 : PyStr.replace "aaa" "aa" "b" None = "ba".
Proof. reflexivity. Qed.
Example replace_empty_ex : PyStr.replace "abc" "" "-" (Some 2) = "-a-bc".
Proof. reflexivity. Qed.
Example replace_empty_ex2 : PyStr.replace "abc" "" "-" None = "-a-b-c-".
Proof. reflexivity. Qed.
Example find_ex : PyStr.find "{context}" "Use {context} here" = Some 4.
Proof. reflexivity. Qed.


(** ** Facts about the string operations *)

Section PyStrFacts.
Import PyStr.

Lemma startswith_app (p s : string) : startswith p (p ++ s) = true.
Proof.
  induction p as [|a p IH]; simpl.
  - reflexivity.
  - now rewrite Ascii.eqb_refl, IH.
Qed.

Lemma startswith_split (p s : string) :
  startswith p s = true -> s = p ++ drop (String.length p) s.
Proof.
  revert s; induction p as [|a p IH]; intros s H; simpl in *.
  - reflexivity.
  - destruct s as [|b s]; [discriminate|].
    apply andb_true_iff in H as [Hab Hp].
    apply Ascii.eqb_eq in Hab; subst b.
    now rewrite <- (IH s Hp).
Qed.

Lemma drop_app_length (p s : string) : drop (String.length p) (p ++ s) = s.
Proof. induction p as [|a p IH]; simpl; auto. Qed.

(** Once the count is used up the rest of the text is copied. *)
Lemma replace_scan_exhausted (old new : string) (k : nat) (s : string) :
  replace_scan old new (Some 0) k s = drop k s.
Proof.
  revert k; induction s as [|c s IH]; intros k.
  - now destruct k.
  - destruct k as [|k]; simpl.
    + now rewrite (IH 0).
    + apply IH.
Qed.

(** [find] returns the position of an occurrence. *)
Lemma find_Some_split (old s : string) (i : nat) :
  find old s = Some i ->
  s = take i s ++ old ++ drop (i + String.length old) s.
Proof.
  revert i; induction s as [|c s IH]; intros i H.
  - simpl in H. destruct old; simpl in H; [|discriminate].
    injection H as <-. reflexivity.
  - cbn [find] in H.
    destruct (startswith old (String c s)) eqn:Hp.
    + injection H as <-. cbn [take Nat.add]. cbn [append].
      now apply startswith_split.
    + destruct (find old s) as [j|] eqn:Hj; [|discriminate].
      cbn in H. injection H as <-.
      cbn [take Nat.add drop append]. f_equal. now apply IH.
Qed.

(** [s.replace(old, new, 1)] rewrites the first occurrence and nothing
    else. *)
Lemma replace_scan_first_at (old new pre post : string) :
  old <> "" ->
  find old (pre ++ old ++ post) = Some (String.length pre) ->
  replace_scan old new (Some 1) 0 (pre ++ old ++ post) = pre ++ new ++ post.
Proof.
  intros Hold.
  induction pre as [|a pre IH]; intros Hf.
  - destruct old as [|o old']; [congruence|].
    cbn [append String.length].
    cbn [replace_scan may_replace andb].
    change (String o (old' ++ post)) with (String o old' ++ post).
    rewrite startswith_app.
    cbn [used_one Nat.pred String.length].
    now rewrite replace_scan_exhausted, drop_app_length.
  - change (String a pre ++ old ++ post) with (String a (pre ++ old ++ post)) in *.
    change (String a pre ++ new ++ post) with (String a (pre ++ new ++ post)).
    cbn [find String.length] in Hf.
    cbn [replace_scan may_replace andb].
    destruct (startswith old (String a (pre ++ old ++ post))); [discriminate|].
    destruct (find old (pre ++ old ++ post)) as [j|] eqn:Hj; [|discriminate].
    cbn in Hf. injection Hf as ->.
    f_equal. now apply IH.
Qed.

Lemma replace_first_at (old new pre post : string) :
  old <> "" ->
  find old (pre ++ old ++ post) = Some (String.length pre) ->
  replace (pre ++ old ++ post) old new (Some 1) = pre ++ new ++ post.
Proof.
  intros Hold Hf. unfold replace.
  destruct old as [|o old'] eqn:E; [congruence|]. rewrite <- E in *.
  apply replace_scan_first_at; [congruence | assumption].
Qed.

(** The same, by the position [find] gives. *)
Lemma replace_first_found (s old new : string) (i : nat) :
  old <> "" ->
  find old s = Some i ->
  replace s old new (Some 1) = take i s ++ new ++ drop (i + String.length old) s.
Proof.
  intros Hold Hf.
  pose proof (find_Some_split _ _ _ Hf) as Hs.
  assert (Hlen : String.length (take i s) = i).
  { clear Hs. revert i Hf. induction s as [|c s IH]; intros i Hf.
    - simpl in Hf. destruct old; [congruence | discriminate].
    - cbn [find] in Hf.
      destruct (startswith old (String c s)); [now injection Hf as <-|].
      destruct (find old s) as [j|] eqn:Hj; [|discriminate].
      cbn in Hf. injection Hf as <-. cbn. f_equal. now apply IH. }
  rewrite Hs at 1.
  apply replace_first_at; [assumption|].
  rewrite <- Hs. now rewrite Hlen.
Qed.

(** Without an occurrence the text is returned as it is. *)
Lemma replace_absent (s old new : string) (count : option nat) :
  old <> "" -> find old s = None -> replace s old new count = s.
Proof.
  intros Hold. destruct old as [|o old']; [congruence|]. clear Hold.
  unfold replace.
  induction s as [|c s IH]; intros Hf; [reflexivity|].
  cbn [find] in Hf.
  destruct (startswith (String o old') (String c s)) eqn:Hp; [discriminate|].
  destruct (find (String o old') s) eqn:Hj; [discriminate|].
  cbn [replace_scan]. rewrite Hp, andb_false_r. f_equal. now apply IH.
Qed.

Lemma contains_app (x pre post : string) : contains x (pre ++ x ++ post) = true.
Proof.
  unfold contains.
  induction pre as [|a pre IH]; cbn [append].
  - destruct x; [destruct post; reflexivity|]. cbn [append find].
    change (String a (x ++ post)) with (String a x ++ post).
    now rewrite startswith_app.
  - cbn [find].
    destruct (startswith x (String a (pre ++ x ++ post))); [reflexivity|].
    destruct (find x (pre ++ x ++ post)); [reflexivity | discriminate].
Qed.

Lemma replace_char_all (c : ascii) (new s : string) :
  replace s (String c "") new None = subst_char c new s.
Proof.
  unfold replace.
  induction s as [|a s IH]; [reflexivity|].
  cbn [replace_scan may_replace andb startswith subst_char used_one
       String.length Nat.pred].
  destruct (Ascii.eqb c a); cbn [andb].
  - destruct s; cbn [startswith]; now rewrite IH.
  - now rewrite IH.
Qed.
End PyStrFacts.

(** ** History formatting *)

Section AddHistory.
Import PyStr utils.
Variable settings : Settings.
Variable os_makedirs : string -> exn + unit.
Context {S : Type}.

(** The two [replace] calls of line 24 double every brace: the second one
    leaves alone what the first one inserted. *)
Lemma escaping_doubles_braces (history : string) :
  replace (replace history "{" "{{" None) "}" "}}" None = escape_braces history.
Proof.
  rewrite !replace_char_all.
  induction history as [|c h IH]; [reflexivity|].
  cbn [subst_char escape_braces].
  destruct (Ascii.eqb "{" c) eqn:Eo.
  - apply Ascii.eqb_eq in Eo; subst c. cbn. now rewrite IH.
  - rewrite Ascii.eqb_sym in Eo. rewrite Eo.
    cbn [subst_char]. rewrite (Ascii.eqb_sym c "}"%char).
    destruct (Ascii.eqb "}" c) eqn:Ec.
    + apply Ascii.eqb_eq in Ec; subst c. cbn. now rewrite IH.
    + now rewrite IH.
Qed.

(** What a call of [add_history] does, by what its collaborators answer. *)
Lemma add_history_run (template : string) (cid : UUID)
      (repo : ConversationHistoryRepositoryLocal) (s : S) :
  add_history settings os_makedirs template cid repo s =
  match os_makedirs (CONVERSATIONS_DIR settings) with
  | inl e => ([Makedirs (CONVERSATIONS_DIR settings)], s, inl e)
  | inr _ =>
      match get_prompt_history repo cid (PROMPT_HISTORY_INCLUDED_COUNT settings) with
      | inl e => ([Makedirs (CONVERSATIONS_DIR settings);
                   GetPromptHistory cid (PROMPT_HISTORY_INCLUDED_COUNT settings)],
                  s, inl e)
      | inr h => ([Makedirs (CONVERSATIONS_DIR settings);
                   GetPromptHistory cid (PROMPT_HISTORY_INCLUDED_COUNT settings)],
                  s,
                  inr {| template_with_history :=
                           replace template "{history}" (escape_braces h) (Some 1);
                         formatted_history := escape_braces h |})
      end
  end.
Proof.
  unfold add_history, bind, call, ret.
  destruct (os_makedirs _) as [e|[]]; [reflexivity|].
  destruct (get_prompt_history _ _ _) as [e|h]; [reflexivity|].
  cbn [raising app]. now rewrite escaping_doubles_braces.
Qed.

Lemma add_history_returned (template : string) (cid : UUID)
      (repo : ConversationHistoryRepositoryLocal) (s s' : S)
      (evs : list event) (H : History) :
  add_history settings os_makedirs template cid repo s = (evs, s', inr H) ->
  exists h,
    get_prompt_history repo cid (PROMPT_HISTORY_INCLUDED_COUNT settings) = inr h /\
    H = {| template_with_history :=
             replace template "{history}" (escape_braces h) (Some 1);
           formatted_history := escape_braces h |}.
Proof.
  rewrite add_history_run.
  destruct (os_makedirs _) as [e|u]; [discriminate|].
  destruct (get_prompt_history _ _ _) as [e|h]; [discriminate|].
  intros E. exists h. split; [reflexivity|]. congruence.
Qed.

(** C5. Whenever [add_history] returns a [History], the text fetched from
    the repository had every brace doubled first ([formatted_history] is
    that escaped text), and the escaped text, not the raw one, was put in
    place of the first [{history}] of the template: the template around the
    placeholder is unchanged, the escaped history stands between them as it
    is, later placeholders are left, and a template without the
    placeholder is returned as it is. *)
Theorem add_history_escapes_then_substitutes
        (template : string) (cid : UUID)
        (repo : ConversationHistoryRepositoryLocal) (s s' : S)
        (evs : list event) (H : History) :
  add_history settings os_makedirs template cid repo s = (evs, s', inr H) ->
  exists h,
    get_prompt_history repo cid (PROMPT_HISTORY_INCLUDED_COUNT settings) = inr h /\
    formatted_history H = escape_braces h /\
    template_with_history H =
      replace template "{history}" (escape_braces h) (Some 1) /\
    (forall pre post,
        template = pre ++ "{history}" ++ post ->
        find "{history}" template = Some (String.length pre) ->
        template_with_history H = pre ++ escape_braces h ++ post /\
        contains (escape_braces h) (template_with_history H) = true) /\
    (find "{history}" template = None -> template_with_history H = template).
Proof.
  intros Hrun. apply add_history_returned in Hrun as (h & Hh & ->).
  exists h. cbn [formatted_history template_with_history].
  repeat split; try assumption.
  - subst template. now apply replace_first_at.
  - subst template. rewrite replace_first_at by (congruence || assumption).
    apply contains_app.
  - intros Hnone. now apply replace_absent.
Qed.

(** C8. With an empty history text, [formatted_history] is empty and
    [template_with_history] is the template with its first [{history}]
    placeholder replaced by the empty string. *)
Theorem add_history_empty_history
        (template : string) (cid : UUID)
        (repo : ConversationHistoryRepositoryLocal) (s s' : S)
        (evs : list event) (H : History) :
  get_prompt_history repo cid (PROMPT_HISTORY_INCLUDED_COUNT settings) = inr "" ->
  add_history settings os_makedirs template cid repo s = (evs, s', inr H) ->
  formatted_history H = "" /\
  template_with_history H = replace template "{history}" "" (Some 1) /\
  (forall pre post,
      template = pre ++ "{history}" ++ post ->
      find "{history}" template = Some (String.length pre) ->
      template_with_history H = pre ++ post) /\
  (find "{history}" template = None -> template_with_history H = template).
Proof.
  intros Hempty Hrun. apply add_history_returned in Hrun as (h & Hh & ->).
  rewrite Hempty in Hh. injection Hh as <-.
  cbn [formatted_history template_with_history escape_braces].
  repeat split.
  - intros pre post -> Hf. now rewrite replace_first_at.
  - intros Hnone. now apply replace_absent.
Qed.
End AddHistory.

Lemma add_history_escapes_then_substitutes_witness :
  exists h,
    get_prompt_history Samples.history_with_braces 7%N 5%Z = inr h /\
    utils.escape_braces h = "User: {{a}}" /\
    PyStr.replace "So far: {history}!" "{history}" (utils.escape_braces h) (Some 1)
    = "So far: User: {{a}}!".
Proof.
  edestruct (add_history_escapes_then_substitutes
               Samples.settings_with_unity Samples.os_makedirs (S := unit)
               "So far: {history}!" 7%N Samples.history_with_braces tt)
    as (h & Hh & Hf & Ht & _); [reflexivity|].
  exists h. split; [exact Hh|]. split.
  - rewrite <- Hf. reflexivity.
  - rewrite <- Ht. reflexivity.
Defined.

Lemma add_history_empty_history_witness :
  PyStr.replace "So far: {history}!" "{history}" "" (Some 1) = "So far: !".
Proof.
  edestruct (add_history_empty_history
               Samples.settings_with_unity Samples.os_makedirs (S := unit)
               "So far: {history}!" 7%N Samples.history_empty tt)
    as (_ & Ht & _); [reflexivity | reflexivity |].
  rewrite <- Ht. reflexivity.
Defined.

(** Only the first placeholder takes the history. *)
Example add_history_first_placeholder_only :
  outcome (utils.add_history Samples.settings_with_unity Samples.os_makedirs
                             "{history} | {history} | {x}" 7%N
                             Samples.history_with_braces tt)
  = inr {| utils.template_with_history := "User: {{a}} | {history} | {x}";
           utils.formatted_history := "User: {{a}}" |}.
Proof. reflexivity. Qed.

(** ** The companion prompt *)

Section UnityPrompt.
Import PyStr utils.
Variable settings : Settings.
Variable os_makedirs : string -> exn + unit.
Variable os_path_join : string -> string -> string.
Variable open_read : string -> exn + string.
Context {S : Type}.

Let function_template_path : string :=
  os_path_join (PROMPTS_DIRECTORY settings) "prompt_template_unity_function.txt".

(** With the URL set, the prompt is built from the function template file
    and the history, whenever both are obtained. *)
Lemma unity_prompt_built (domain_input : UserMessageInput)
      (repo : ConversationHistoryRepositoryLocal) (s s' : S)
      (template : string) (evs : list event) (H : History) :
  url_truthy (UNITY_COPILOT_URL settings) = true ->
  open_read function_template_path = inr template ->
  add_history settings os_makedirs template (chat_id domain_input) repo s
  = (evs, s', inr H) ->
  get_unity_communication_prompt settings os_makedirs os_path_join open_read
                                 domain_input repo s
  = (OpenRead function_template_path :: evs, s',
     inr (Some (replace (template_with_history H) "{question}"
                        (message domain_input) (Some 1)))).
Proof.
  intros Hurl Hfile Hadd.
  unfold get_unity_communication_prompt. rewrite Hurl.
  unfold bind at 1. unfold get_function_system_message, call.
  fold function_template_path. rewrite Hfile. cbn [raising].
  unfold bind, ret. rewrite Hadd. cbn. now rewrite app_nil_r.
Qed.

(** C7. With the companion URL unset (or empty) the function returns
    [None], reading neither the template file nor the history; with the URL
    set, it returns the function template with the escaped history in place
    of its first [{history}] and then the user's message in place of the
    first [{question}]. *)
Theorem unity_prompt_absent_or_built (domain_input : UserMessageInput)
        (repo : ConversationHistoryRepositoryLocal) (s : S) :
  (url_truthy (UNITY_COPILOT_URL settings) = false ->
   get_unity_communication_prompt settings os_makedirs os_path_join open_read
                                  domain_input repo s
   = ([], s, inr None)) /\
  (UNITY_COPILOT_URL settings = None ->
   outcome (get_unity_communication_prompt settings os_makedirs os_path_join
                                           open_read domain_input repo s)
   = inr None) /\
  (forall template h,
      url_truthy (UNITY_COPILOT_URL settings) = true ->
      open_read function_template_path = inr template ->
      os_makedirs (CONVERSATIONS_DIR settings) = inr tt ->
      get_prompt_history repo (chat_id domain_input)
                         (PROMPT_HISTORY_INCLUDED_COUNT settings) = inr h ->
      outcome (get_unity_communication_prompt settings os_makedirs os_path_join
                                              open_read domain_input repo s)
      = inr (Some (replace
                     (replace template "{history}" (escape_braces h) (Some 1))
                     "{question}" (message domain_input) (Some 1)))).
Proof.
  split; [|split].
  - intros Hurl. unfold get_unity_communication_prompt. now rewrite Hurl.
  - intros Hnone. unfold get_unity_communication_prompt. now rewrite Hnone.
  - intros template h Hurl Hfile Hmk Hh.
    assert (Hadd := add_history_run settings os_makedirs (S := S) template
                      (chat_id domain_input) repo s).
    rewrite Hmk, Hh in Hadd.
    now rewrite (unity_prompt_built _ _ _ _ _ _ _ Hurl Hfile Hadd).
Qed.

End UnityPrompt.

Lemma unity_prompt_absent_or_built_witness :
  outcome (utils.get_unity_communication_prompt
             Samples.settings_without_unity Samples.os_makedirs
             Samples.os_path_join Samples.open_read
             Samples.input_hello Samples.history_with_braces tt)
  = inr None /\
  outcome (utils.get_unity_communication_prompt
             Samples.settings_with_unity Samples.os_makedirs
             Samples.os_path_join Samples.open_read
             Samples.input_hello Samples.history_with_braces tt)
  = inr (Some "Q: hello H: User: {{a}} Again: {question}").
Proof.
  split.
  - apply (unity_prompt_absent_or_built
             Samples.settings_without_unity Samples.os_makedirs
             Samples.os_path_join Samples.open_read (S := unit)
             Samples.input_hello Samples.history_with_braces tt).
    reflexivity.
  - destruct (unity_prompt_absent_or_built
                Samples.settings_with_unity Samples.os_makedirs
                Samples.os_path_join Samples.open_read (S := unit)
                Samples.input_hello Samples.history_with_braces tt)
      as (_ & _ & Hbuilt).
    rewrite (Hbuilt "Q: {question} H: {history} Again: {question}" "User: {a}");
      reflexivity.
Defined.


(** ** Context assembly *)

Section GetContext.
Import on_user_message_streaming_use_case.
Variable settings : Settings.
Context {S : Type}.

(** C6. Without the [{context}] marker in the system message the context is
    empty and the document store is not called; with the marker, [find] is
    called once, with the user's message and the configured maximum, and what
    it returns (its fragments in their order, or its exception) is what
    [_get_context] returns. *)
Theorem get_context_queries_store_once_if_marked
        (domain_input : UserMessageInput) (system_message : string)
        (document_store : DocumentStore) (s : S) :
  (PyStr.contains "{context}" system_message = false ->
   _get_context settings domain_input system_message document_store s
   = ([], s, inr [])) /\
  (PyStr.contains "{context}" system_message = true ->
   _get_context settings domain_input system_message document_store s
   = ([Find (message domain_input) (MAX_CONTEXT_DOCUMENTS_COUNT settings)], s,
      raising (store_find document_store (message domain_input)
                          (MAX_CONTEXT_DOCUMENTS_COUNT settings)))).
Proof.
  unfold _get_context. split; intros ->.
  - reflexivity.
  - cbn [List.length Z.of_nat]. rewrite Z.sub_0_r.
    unfold bind, call, ret.
    destruct (store_find _ _ _) as [e|found]; reflexivity.
Qed.
End GetContext.

Lemma get_context_queries_store_once_if_marked_witness :
  on_user_message_streaming_use_case._get_context
    Samples.settings_with_unity Samples.input_hello
    "Answer from the history only: {history}" Samples.document_store tt
  = ([], tt, inr []) /\
  on_user_message_streaming_use_case._get_context
    Samples.settings_with_unity Samples.input_hello
    "Use {context}. So far: {history}" Samples.document_store tt
  = ([Find "hello" 4%Z], tt,
     inr [ {| page_content := "first"; metadata := PNone |};
           {| page_content := "second"; metadata := PNone |} ]).
Proof.
  split.
  - apply (get_context_queries_store_once_if_marked
             Samples.settings_with_unity (S := unit) Samples.input_hello
             "Answer from the history only: {history}" Samples.document_store tt).
    reflexivity.
  - apply (get_context_queries_store_once_if_marked
             Samples.settings_with_unity (S := unit) Samples.input_hello
             "Use {context}. So far: {history}" Samples.document_store tt).
    reflexivity.
Defined.

(** ** Token issuance *)

Section Token.
Import create_access_token.
Variable settings : Settings.
Variable time_time : nat -> float.
Variable jwt_encode : Payload -> string -> string -> string.

(** C9. A client id or secret that differs from the configured one makes
    [execute] raise [InvalidCredentialsAPIError], so no token is returned; the
    configured pair gives the HS256 token of the payload whose [sub] is the
    user id, whose [iat] is the clock reading minus 100 and whose [exp] is
    the (next) clock reading plus the configured expiration. *)
Theorem token_issued_only_for_configured_credentials
        (client_id client_secret user_id : string) :
  (client_id <> JWT_CLIENT_ID settings \/
   client_secret <> JWT_CLIENT_SECRET settings ->
   execute settings time_time jwt_encode client_id client_secret user_id
   = inl InvalidCredentialsAPIError) /\
  (client_id = JWT_CLIENT_ID settings ->
   client_secret = JWT_CLIENT_SECRET settings ->
   exists payload,
     execute settings time_time jwt_encode client_id client_secret user_id
     = inr (jwt_encode payload (JWT_CLIENT_SECRET settings) "HS256") /\
     sub payload = user_id /\
     iat payload = PrimFloat.sub (time_time 0) 100%float /\
     exp payload = PrimFloat.add (time_time 1)
                                 (JWT_TOKEN_EXPIRATION_SECONDS settings)).
Proof.
  unfold execute. split.
  - intros [Hid | Hsecret].
    + apply String.eqb_neq in Hid. now rewrite Hid.
    + apply String.eqb_neq in Hsecret. rewrite Hsecret.
      now rewrite orb_true_r.
  - intros -> ->. rewrite !String.eqb_refl. cbn [negb orb].
    eexists. split; [reflexivity|]. repeat split.
Qed.
End Token.

Lemma token_issued_only_for_configured_credentials_witness :
  create_access_token.execute Samples.settings_with_unity Samples.time_time
                              Samples.jwt_encode "client" "guess" "user-1"
  = inl create_access_token.InvalidCredentialsAPIError /\
  exists payload,
    create_access_token.execute Samples.settings_with_unity Samples.time_time
                                Samples.jwt_encode "client" "secret" "user-1"
    = inr (Samples.jwt_encode payload "secret" "HS256") /\
    create_access_token.sub payload = "user-1" /\
    create_access_token.iat payload = 1699999900%float /\
    create_access_token.exp payload = 1700003601%float.
Proof.
  split.
  - apply (token_issued_only_for_configured_credentials
             Samples.settings_with_unity Samples.time_time Samples.jwt_encode
             "client" "guess" "user-1").
    right. discriminate.
  - destruct (token_issued_only_for_configured_credentials
                Samples.settings_with_unity Samples.time_time Samples.jwt_encode
                "client" "secret" "user-1") as [_ Hok].
    destruct (Hok eq_refl eq_refl) as (payload & Hrun & Hsub & Hiat & Hexp).
    exists payload. repeat split; assumption.
Defined.

(** ** The streaming phase *)

Section Streaming.
Import on_user_message_streaming_use_case.
Variable settings : Settings.
Variable os_makedirs : string -> exn + unit.
Variable os_path_join : string -> string -> string.
Variable open_read : string -> exn + string.
Variable json_loads : string -> exn + pyval.
Variable LoadingMessage_from_dict : pyval -> exn + LoadingMessage.
Variable datetime_now : nat -> float.
Variable get_gpt_result :
  UserMessageInput -> string -> list Document -> option string -> TaskRun.

#[local] Abbreviation on_item :=
  (on_callback_result json_loads LoadingMessage_from_dict).
#[local] Abbreviation try_block :=
  (try_body json_loads LoadingMessage_from_dict).
#[local] Abbreviation stream :=
  (streaming json_loads LoadingMessage_from_dict datetime_now).

(** The chunk, if any, of line 65. *)
#[local] Abbreviation token_events d token :=
  (if truthy token then [Yield (token_chunk d token)] else []).

(** One round of the loop, by what parsing gives. *)
Lemma on_callback_result_run (d : UserMessageInput) (raw : string) (s : string) :
  on_item d raw s =
  match json_loads raw with
  | inl e => ([], s, inl e)
  | inr parsed =>
      match py_get parsed "token", py_get parsed "loading_message" with
      | inl e, _ => ([], s, inl e)
      | inr token, inl e => (token_events d token, s, inl e)
      | inr token, inr loading =>
          if truthy loading then
            match LoadingMessage_from_dict loading with
            | inl e => (token_events d token, s, inl e)
            | inr parsed_message =>
                ((token_events d token ++
                  [Yield (loading_chunk d parsed_message)])%list, s, inr tt)
            end
          else (token_events d token, s, inr tt)
      end
  end.
Proof.
  unfold on_callback_result, bind, lift, emit, ret, token_chunk, loading_chunk.
  destruct (json_loads raw) as [e|parsed]; [reflexivity|].
  cbv beta iota delta [raising].
  destruct (py_get parsed "token") as [e|token]; [reflexivity|].
  destruct (py_get parsed "loading_message") as [e|loading];
    destruct (truthy token); cbn; try reflexivity;
    destruct (truthy loading); cbn; try reflexivity;
    destruct (LoadingMessage_from_dict loading); reflexivity.
Qed.

(** A round of the loop only yields chunks, at most two, and leaves
    [result] alone. *)
Lemma on_callback_result_frame (d : UserMessageInput) (raw : string) (s : string) :
  locals (on_item d raw s) = s /\
  forallb is_yield (trace (on_item d raw s)) = true /\
  List.length (trace (on_item d raw s)) <= 2.
Proof.
  rewrite on_callback_result_run.
  destruct (json_loads raw) as [e|parsed]; [cbn; auto|].
  destruct (py_get parsed "token") as [e|token]; [cbn; auto|].
  destruct (py_get parsed "loading_message") as [e|loading];
    destruct (truthy token); cbn; auto;
    destruct (truthy loading); cbn; auto;
    destruct (LoadingMessage_from_dict loading); cbn; auto.
Qed.

Lemma async_for_cons (d : UserMessageInput) (x : string) (rest : list string)
      (ending : option raised) (s : string) :
  async_for (x :: rest) ending (on_item d) s =
  match outcome (on_item d x s) with
  | inl e => (trace (on_item d x s), s, inl e)
  | inr _ =>
      ((trace (on_item d x s) ++ trace (async_for rest ending (on_item d) s))%list,
       locals (async_for rest ending (on_item d) s),
       outcome (async_for rest ending (on_item d) s))
  end.
Proof.
  cbn [async_for]. unfold bind.
  destruct (on_callback_result_frame d x s) as (Hs & _).
  destruct (on_item d x s) as [[evs s1] [e|u]]; cbn in *; subst s1.
  - reflexivity.
  - now destruct (async_for rest ending (on_item d) s) as [[evs2 s2] o].
Qed.

Lemma async_for_frame (d : UserMessageInput) (items : list string)
      (ending : option raised) (s : string) :
  locals (async_for items ending (on_item d) s) = s /\
  forallb is_yield (trace (async_for items ending (on_item d) s)) = true.
Proof.
  induction items as [|x rest IH].
  - cbn. destruct ending; cbn; auto.
  - rewrite async_for_cons.
    destruct (on_callback_result_frame d x s) as (_ & Hy & _).
    destruct IH as [IHs IHy].
    destruct (outcome (on_item d x s)); unfold trace, locals in *; cbn [fst snd].
    + auto.
    + split; [assumption|].
      rewrite forallb_app. now rewrite Hy, IHy.
Qed.

(** The [try] block, by how the loop and the task end. *)
Lemma try_body_run (d : UserMessageInput) (task : TaskRun) (s : string) :
  let loop := async_for (callback_items task) (callback_ending task) (on_item d) s in
  try_block d task s =
  match outcome loop, task_result task with
  | inl e, _ => (trace loop, s, inl e)
  | inr _, inl e => (trace loop, s, inl e)
  | inr _, inr r => (trace loop, r, inr tt)
  end.
Proof.
  cbv zeta. unfold try_body, bind at 1.
  destruct (async_for_frame d (callback_items task) (callback_ending task) s)
    as (Hs & _).
  destruct (async_for _ _ _ s) as [[evs s1] [e|u]]; cbn in *; subst s1.
  - reflexivity.
  - unfold bind, lift, put. destruct (task_result task); cbn; now rewrite app_nil_r.
Qed.

Lemma try_body_frame (d : UserMessageInput) (task : TaskRun) (s : string) :
  forallb is_yield (trace (try_block d task s)) = true /\
  (forall e, outcome (try_block d task s) = inl e ->
             locals (try_block d task s) = s).
Proof.
  rewrite try_body_run.
  destruct (async_for_frame d (callback_items task) (callback_ending task) s)
    as (_ & Hy).
  destruct (outcome (async_for _ _ _ s)); [cbn; auto|].
  destruct (task_result task); cbn; auto. split; [assumption | discriminate].
Qed.

(** The whole [try]/[except]/[finally] statement, by how the [try] block
    ends. *)
Lemma streaming_run (d : UserMessageInput) (ts : float) (task : TaskRun)
      (s0 : string) :
  stream d ts task s0 =
  match outcome (try_block d task "") with
  | inr _ =>
      ((trace (try_block d task "") ++
        finalization d ts (datetime_now 1) (locals (try_block d task "")))%list,
       locals (try_block d task ""), inr tt)
  | inl (Ordinary e) =>
      ((trace (try_block d task "") ++
        [LogError ("Stream error: " ++ exn_str e); Yield (error_chunk d e)] ++
        finalization d ts (datetime_now 1) (locals (try_block d task "")))%list,
       locals (try_block d task ""), inr tt)
  | inl (BaseOnly type_name str) =>
      ((trace (try_block d task "") ++
        finalization d ts (datetime_now 1) (locals (try_block d task "")))%list,
       locals (try_block d task ""), inl (BaseOnly type_name str))
  end.
Proof.
  unfold streaming, bind at 1, put at 1, finalization.
  unfold try_finally, try_except, except_handler, finally_block.
  destruct (try_block d task "") as [[evs r] [[e|type_name str]|[]]]; cbn.
  - now rewrite <- app_assoc.
  - reflexivity.
  - reflexivity.
Qed.

Lemma yielded_app (a b : list event) :
  yielded (a ++ b) = (yielded a ++ yielded b)%list.
Proof.
  induction a as [|ev a IH]; [reflexivity|].
  destruct ev; cbn; now rewrite ?IH.
Qed.

Lemma times_app (p : event -> bool) (a b : list event) :
  times p (a ++ b) = times p a + times p b.
Proof. unfold times. now rewrite filter_app, length_app. Qed.

Lemma times_only_yields (t : list event) :
  forallb is_yield t = true ->
  times is_validate_urls t = 0 /\ times is_save_history t = 0.
Proof.
  unfold times. induction t as [|ev t IH]; [auto|].
  cbn [forallb]. intros H. apply andb_true_iff in H as [Hev Ht].
  destruct ev; try discriminate. cbn. auto.
Qed.

#[local] Abbreviation before_streaming :=
  (prelude settings os_makedirs os_path_join open_read datetime_now get_gpt_result).
#[local] Abbreviation run :=
  (execute settings os_makedirs os_path_join open_read json_loads
           LoadingMessage_from_dict datetime_now get_gpt_result).

(** Computations none of whose actions is a validation or a save. *)
#[local] Abbreviation quiet m :=
  (forall s, forallb not_finalization (trace (m s)) = true).

Lemma quiet_ret {S A} (a : A) : quiet (ret (S := S) a).
Proof. reflexivity. Qed.

Lemma quiet_call {S A} (ev : event) (r : exn + A) :
  not_finalization ev = true -> quiet (call (S := S) ev r).
Proof. intros Hev s. cbn. now rewrite Hev. Qed.

Lemma quiet_bind {S A B} (m : M S A) (k : A -> M S B) :
  quiet m -> (forall a, quiet (k a)) -> quiet (bind m k).
Proof.
  intros Hm Hk s. unfold bind. specialize (Hm s).
  destruct (m s) as [[evs s1] [e|a]]; [exact Hm|].
  specialize (Hk a s1). destruct (k a s1) as [[evs2 s2] o].
  unfold trace in *. cbn [fst] in *. now rewrite forallb_app, Hm, Hk.
Qed.

Lemma quiet_times (t : list event) :
  forallb not_finalization t = true ->
  times is_validate_urls t = 0 /\ times is_save_history t = 0.
Proof.
  unfold times. induction t as [|ev t IH]; [auto|].
  cbn [forallb]. intros H. apply andb_true_iff in H as [Hev Ht].
  destruct ev; try discriminate; cbn; auto.
Qed.

(** What runs before the [try] statement neither validates nor saves. *)
Lemma prelude_no_finalization (d : UserMessageInput) (store : DocumentStore)
      (repo : ConversationHistoryRepositoryLocal) (s : string) :
  times is_validate_urls (trace (before_streaming d store repo s)) = 0 /\
  times is_save_history (trace (before_streaming d store repo s)) = 0.
Proof.
  apply quiet_times. revert s.
  unfold prelude, utils.get_system_message, _get_context,
    utils.get_unity_communication_prompt, utils.get_function_system_message,
    utils.add_history.
  repeat first
         [ apply quiet_ret
         | apply quiet_call; reflexivity
         | apply quiet_bind; [|intros ?]
         | match goal with
           | |- context [if ?b then _ else _] => destruct b
           end ].
Qed.

Lemma execute_run (d : UserMessageInput) (store : DocumentStore)
      (repo : ConversationHistoryRepositoryLocal) (s s1 : string)
      (evs0 : list event) (ts : float) (task : TaskRun) :
  before_streaming d store repo s = (evs0, s1, inr (ts, task)) ->
  run d store repo s =
  ((evs0 ++ trace (stream d ts task s1))%list,
   locals (stream d ts task s1), outcome (stream d ts task s1)).
Proof.
  intros Hpre. unfold execute, bind. rewrite Hpre. cbn [fst snd].
  now destruct (stream d ts task s1) as [[evs r] o].
Qed.

(** C1. Once the request has entered the streaming phase, whatever the
    channel delivers, however it ends and whatever awaiting the task gives
    (a value, an exception that is handled or one that is not),
    the run ends with the finalization ([validate_urls] and then
    [save_history], for one and the same result text) and nothing before it
    validates or saves: each of the two calls happens exactly once. *)
Theorem finalization_exactly_once
        (d : UserMessageInput) (store : DocumentStore)
        (repo : ConversationHistoryRepositoryLocal) (s s1 : string)
        (evs0 : list event) (ts : float) (task : TaskRun) :
  before_streaming d store repo s = (evs0, s1, inr (ts, task)) ->
  exists before result,
    trace (run d store repo s)
    = (before ++ finalization d ts (datetime_now 1) result)%list /\
    times is_validate_urls before = 0 /\
    times is_save_history before = 0 /\
    times is_validate_urls (trace (run d store repo s)) = 1 /\
    times is_save_history (trace (run d store repo s)) = 1.
Proof.
  intros Hpre.
  destruct (prelude_no_finalization d store repo s) as [Hv0 Hs0].
  rewrite Hpre in Hv0, Hs0. unfold trace at 1 in Hv0. unfold trace at 1 in Hs0.
  cbn [fst] in Hv0, Hs0.
  rewrite (execute_run _ _ _ _ _ _ _ _ Hpre). unfold trace at 1 3 5. cbn [fst].
  rewrite streaming_run.
  destruct (try_body_frame d task "") as [Hy _].
  destruct (times_only_yields _ Hy) as [Hv Hs].
  set (body := try_block d task "") in *.
  destruct (outcome body) as [[e|type_name str]|u]; unfold trace at 1 3 5;
    cbn [fst].
  - exists (evs0 ++ trace body ++
            [LogError ("Stream error: " ++ exn_str e); Yield (error_chunk d e)])%list,
           (locals body).
    rewrite <- !app_assoc. split; [reflexivity|].
    rewrite !times_app, Hv0, Hs0, Hv, Hs. cbn. auto.
  - exists (evs0 ++ trace body)%list, (locals body).
    rewrite <- !app_assoc. split; [reflexivity|].
    rewrite !times_app, Hv0, Hs0, Hv, Hs. cbn. auto.
  - exists (evs0 ++ trace body)%list, (locals body).
    rewrite <- !app_assoc. split; [reflexivity|].
    rewrite !times_app, Hv0, Hs0, Hv, Hs. cbn. auto.
Qed.

(** C2, as the code has it. When the loop over the channel raises an
    instance of [Exception] (from the channel itself or from handling an
    item), or the loop ends and awaiting the task raises one, the statement
    yields, after the chunks already yielded, one more chunk, the last, whose
    [error] names the type of the exception; finalization gets the empty
    string; and the statement itself ends without an exception. *)
Theorem stream_error_yields_one_final_error_chunk
        (d : UserMessageInput) (ts : float) (task : TaskRun) (s0 : string)
        (e : exn) :
  let loop := async_for (callback_items task) (callback_ending task)
                        (on_item d) "" in
  outcome loop = inl e \/ (outcome loop = inr tt /\ task_result task = inl e) ->
  stream d ts task s0
  = ((trace loop ++
      [LogError ("Stream error: " ++ exn_str e); Yield (error_chunk d e)] ++
      finalization d ts (datetime_now 1) "")%list, "", inr tt) /\
  yielded (trace (stream d ts task s0))
  = (yielded (trace loop) ++ [error_chunk d e])%list /\
  forallb is_yield (trace loop) = true /\
  error (error_chunk d e) = Some ("OpenAI error: " ++ exn_type e).
Proof.
  intros loop Hfail.
  destruct (async_for_frame d (callback_items task) (callback_ending task) "")
    as [_ Hy]. fold loop in Hy.
  assert (Hbody : try_block d task "" = (trace loop, "", inl e)).
  { rewrite try_body_run. fold loop.
    destruct Hfail as [Hl | [Hl Ht]]; rewrite Hl; [reflexivity|].
    now rewrite Ht. }
  assert (Hrun : stream d ts task s0
                 = ((trace loop ++
                     [LogError ("Stream error: " ++ exn_str e);
                      Yield (error_chunk d e)] ++
                     finalization d ts (datetime_now 1) "")%list, "", inr tt)).
  { rewrite streaming_run, Hbody. reflexivity. }
  split; [exact Hrun|]. split; [|split; [exact Hy | reflexivity]].
  rewrite Hrun. unfold trace at 1. cbn [fst].
  rewrite yielded_app. reflexivity.
Qed.


(** C4. When the loop over the channel ends without an exception and the
    awaited task returns [r], the statement yields what the loop yielded and
    finalizes with [r], whatever the tokens were.  For two items with the
    tokens [Hi] and [ there] and a task that returns [Hi there], the run is
    the two text chunks and then the finalization with [Hi there]. *)
Theorem clean_stream_finalizes_with_task_result
        (d : UserMessageInput) (ts : float) (task : TaskRun) (s0 : string)
        (r : string) :
  (let loop := async_for (callback_items task) (callback_ending task)
                         (on_item d) "" in
   outcome loop = inr tt ->
   task_result task = inr r ->
   stream d ts task s0
   = ((trace loop ++ finalization d ts (datetime_now 1) r)%list, r, inr tt) /\
   yielded (trace (stream d ts task s0)) = yielded (trace loop)) /\
  (forall raw1 raw2,
      json_loads raw1 = inr (PDict [("token", PStr "Hi")]) ->
      json_loads raw2 = inr (PDict [("token", PStr " there")]) ->
      callback_items task = [raw1; raw2] ->
      callback_ending task = None ->
      task_result task = inr "Hi there" ->
      stream d ts task s0
      = ([Yield (token_chunk d (PStr "Hi"));
          Yield (token_chunk d (PStr " there"));
          ValidateUrls "Hi there" (chat_id d);
          SaveHistory (message d) "Hi there" ts (datetime_now 1)
                      (chat_id d) (response_message_id d)],
         "Hi there", inr tt)).
Proof.
  assert (Hgen : forall r',
             outcome (async_for (callback_items task) (callback_ending task)
                                (on_item d) "") = inr tt ->
             task_result task = inr r' ->
             stream d ts task s0
             = ((trace (async_for (callback_items task) (callback_ending task)
                                  (on_item d) "") ++
                 finalization d ts (datetime_now 1) r')%list, r', inr tt)).
  { intros r' Hl Ht. rewrite streaming_run, try_body_run, Hl, Ht. reflexivity. }
  split.
  - intros loop Hl Ht. rewrite (Hgen r Hl Ht). split; [reflexivity|].
    unfold trace at 1. cbn [fst]. rewrite yielded_app. cbn. apply app_nil_r.
  - intros raw1 raw2 H1 H2 Hitems Hend Ht.
    assert (Hloop : async_for (callback_items task) (callback_ending task)
                              (on_item d) ""
                    = ([Yield (token_chunk d (PStr "Hi"));
                        Yield (token_chunk d (PStr " there"))], "", inr tt)).
    { rewrite Hitems, Hend. rewrite !async_for_cons.
      rewrite (on_callback_result_run d raw1), H1.
      rewrite (on_callback_result_run d raw2), H2. reflexivity. }
    rewrite (Hgen "Hi there"); [| now rewrite Hloop | exact Ht].
    now rewrite Hloop.
Qed.
End Streaming.

(** ** The properties of the streaming phase on concrete runs *)

Section StreamingRuns.
Import on_user_message_streaming_use_case.

#[local] Abbreviation sample_execute task :=
  (execute Samples.settings_with_unity Samples.os_makedirs Samples.os_path_join
           Samples.open_read Samples.json_loads Samples.LoadingMessage_from_dict
           Samples.datetime_now (fun _ _ _ _ => task)
           Samples.input_hello Samples.document_store
           Samples.history_with_braces "").
#[local] Abbreviation sample_streaming task :=
  (streaming Samples.json_loads Samples.LoadingMessage_from_dict
             Samples.datetime_now Samples.input_hello
             (Samples.datetime_now 0) task "").
#[local] Abbreviation sample_item raw :=
  (on_callback_result Samples.json_loads Samples.LoadingMessage_from_dict
                      Samples.input_hello raw "").

(** The three ways the streaming phase ends, and an item that does not
    parse: one save each. *)
Example save_once_clean_run :
  times is_save_history (trace (sample_execute Samples.run_hi_there)) = 1 /\
  times is_validate_urls (trace (sample_execute Samples.run_hi_there)) = 1.
Proof. split; reflexivity. Qed.

Example save_once_task_fails :
  times is_save_history (trace (sample_execute Samples.run_task_fails)) = 1 /\
  yielded (trace (sample_execute Samples.run_task_fails))
  = [token_chunk Samples.input_hello (PStr "Hi");
     error_chunk Samples.input_hello (Exn "RateLimitError" "quota")].
Proof. split; reflexivity. Qed.

Example save_once_bad_item :
  times is_save_history (trace (sample_execute Samples.run_bad_item)) = 1 /\
  yielded (trace (sample_execute Samples.run_bad_item))
  = [token_chunk Samples.input_hello (PStr "Hi");
     error_chunk Samples.input_hello
       (Exn "JSONDecodeError" "Expecting value: line 1 column 1 (char 0)")].
Proof. split; reflexivity. Qed.

(** The task's text is what is saved, also when it is not the tokens put
    together. *)
Example saved_text_is_task_result :
  trace (sample_streaming
           {| callback_items := [Samples.item_token "Hi"];
              callback_ending := None;
              task_result := inr "Hi there" |})
  = [Yield (token_chunk Samples.input_hello (PStr "Hi"));
     ValidateUrls "Hi there" 7%N;
     SaveHistory "hello" "Hi there" 1700000000%float 1700000003%float 7%N 8%N].
Proof. reflexivity. Qed.

Lemma finalization_exactly_once_witness :
  times is_validate_urls (trace (sample_execute Samples.run_channel_breaks)) = 1 /\
  times is_save_history (trace (sample_execute Samples.run_channel_breaks)) = 1.
Proof.
  edestruct (finalization_exactly_once
               Samples.settings_with_unity Samples.os_makedirs
               Samples.os_path_join Samples.open_read Samples.json_loads
               Samples.LoadingMessage_from_dict Samples.datetime_now
               (fun _ _ _ _ => Samples.run_channel_breaks)
               Samples.input_hello Samples.document_store
               Samples.history_with_braces "")
    as (before & result & _ & _ & _ & Hv & Hs); [reflexivity|].
  split; assumption.
Defined.

(** Scenario D: one token, then the channel raises. *)
Lemma stream_error_yields_one_final_error_chunk_witness :
  yielded (trace (sample_streaming Samples.run_channel_breaks))
  = [token_chunk Samples.input_hello (PStr "Hi");
     error_chunk Samples.input_hello (Exn "APIError" "connection lost")] /\
  times is_save_history (trace (sample_streaming Samples.run_channel_breaks)) = 1 /\
  locals (sample_streaming Samples.run_channel_breaks) = "" /\
  outcome (sample_streaming Samples.run_channel_breaks) = inr tt.
Proof.
  destruct (stream_error_yields_one_final_error_chunk
              Samples.json_loads Samples.LoadingMessage_from_dict
              Samples.datetime_now Samples.input_hello (Samples.datetime_now 0)
              Samples.run_channel_breaks "" (Exn "APIError" "connection lost"))
    as (Hrun & Hy & _); [left; reflexivity|].
  split; [rewrite Hy; reflexivity|].
  rewrite Hrun. repeat split.
Defined.



(** Scenario C. *)
Lemma clean_stream_finalizes_with_task_result_witness :
  sample_streaming Samples.run_hi_there
  = ([Yield (token_chunk Samples.input_hello (PStr "Hi"));
      Yield (token_chunk Samples.input_hello (PStr " there"));
      ValidateUrls "Hi there" 7%N;
      SaveHistory "hello" "Hi there" 1700000000%float 1700000003%float 7%N 8%N],
     "Hi there", inr tt).
Proof.
  destruct (clean_stream_finalizes_with_task_result
              Samples.json_loads Samples.LoadingMessage_from_dict
              Samples.datetime_now Samples.input_hello (Samples.datetime_now 0)
              Samples.run_hi_there "" "Hi there") as [Hgeneral Hscenario].
  destruct (Hgeneral eq_refl eq_refl) as [Hrun _].
  rewrite Hrun.
  rewrite (Hscenario (Samples.item_token "Hi") (Samples.item_token " there")
                     eq_refl eq_refl eq_refl eq_refl eq_refl) in Hrun.
  symmetry. exact Hrun.
Defined.
End StreamingRuns.

(** * Further properties *)

(** ** The escaping of line 24 *)

Section Escaping.
Import PyStr utils.

#[local] Abbreviation escaped h :=
  (replace (replace h "{" "{{" None) "}" "}}" None).

Lemma escape_braces_app (a b : string) :
  escape_braces (a ++ b) = escape_braces a ++ escape_braces b.
Proof.
  induction a as [|c a IH]; [reflexivity|].
  cbn [append escape_braces].
  destruct (Ascii.eqb c "{"); [now rewrite IH|].
  destruct (Ascii.eqb c "}"); now rewrite IH.
Qed.

Lemma escape_braces_injective (a b : string) :
  escape_braces a = escape_braces b -> a = b.
Proof.
  revert b. induction a as [|c a IH]; intros [|c' b] H; cbn [escape_braces] in H.
  - reflexivity.
  - destruct (Ascii.eqb c' "{"); [discriminate|].
    destruct (Ascii.eqb c' "}"); discriminate.
  - destruct (Ascii.eqb c "{"); [discriminate|].
    destruct (Ascii.eqb c "}"); discriminate.
  - destruct (Ascii.eqb c "{") eqn:Eo; destruct (Ascii.eqb c' "{") eqn:Eo';
      [ | destruct (Ascii.eqb c' "}") eqn:Ec'
        | destruct (Ascii.eqb c "}") eqn:Ec
        | destruct (Ascii.eqb c "}") eqn:Ec; destruct (Ascii.eqb c' "}") eqn:Ec' ];
      injection H as Hc H; subst;
      try (apply Ascii.eqb_eq in Eo; subst);
      try (apply Ascii.eqb_eq in Ec; subst);
      try (apply Ascii.eqb_eq in Eo'; subst);
      try (apply Ascii.eqb_eq in Ec'; subst);
      try discriminate;
      try (injection H as H; f_equal; now apply IH);
      try (f_equal; now apply IH).
Qed.

Lemma str_app_assoc (a b c : string) : (a ++ b) ++ c = a ++ b ++ c.
Proof. induction a as [|x a IH]; cbn; [reflexivity | now rewrite IH]. Qed.

Lemma contains_char_cons (x c : ascii) (s : string) :
  contains (String x "") (String c s)
  = Ascii.eqb x c || contains (String x "") s.
Proof.
  unfold contains. cbn [find startswith].
  destruct (Ascii.eqb x c); cbn [andb orb].
  - now destruct s.
  - now destruct (find (String x "") s).
Qed.

Lemma escape_braces_brace_free (s : string) :
  contains "{" s = false -> contains "}" s = false -> escape_braces s = s.
Proof.
  induction s as [|c s IH]; [reflexivity|].
  rewrite !contains_char_cons. intros Ho Hc.
  apply orb_false_iff in Ho as [Ho Ho'], Hc as [Hc Hc'].
  cbn [escape_braces].
  rewrite (Ascii.eqb_sym c "{"), Ho, (Ascii.eqb_sym c "}"), Hc.
  now rewrite IH.
Qed.

Section OnAddHistory.
Variable settings : Settings.
Variable os_makedirs : string -> exn + unit.
Context {S : Type}.

#[local] Abbreviation fetched repo cid :=
  (get_prompt_history repo cid (PROMPT_HISTORY_INCLUDED_COUNT settings)).

(** X1. The escaping loses nothing: two calls of [add_history] that return
    the same [formatted_history] had fetched the same history text. *)
Theorem formatted_history_determines_history
        (t1 t2 : string) (cid1 cid2 : UUID)
        (repo1 repo2 : ConversationHistoryRepositoryLocal)
        (s1 s2 s1' s2' : S) (evs1 evs2 : list event) (H1 H2 : History) :
  add_history settings os_makedirs t1 cid1 repo1 s1 = (evs1, s1', inr H1) ->
  add_history settings os_makedirs t2 cid2 repo2 s2 = (evs2, s2', inr H2) ->
  formatted_history H1 = formatted_history H2 ->
  fetched repo1 cid1 = fetched repo2 cid2.
Proof.
  intros R1 R2 Heq.
  apply add_history_returned in R1 as (h1 & Hh1 & ->).
  apply add_history_returned in R2 as (h2 & Hh2 & ->).
  cbn [formatted_history] in Heq. apply escape_braces_injective in Heq.
  now rewrite Hh1, Hh2, Heq.
Qed.

(** X2. A history without braces goes into the template as it is: the
    returned [formatted_history] is the fetched text, and
    [template_with_history] is the template with that text in place of the
    first placeholder. *)
Theorem history_without_braces_unchanged
        (template : string) (cid : UUID)
        (repo : ConversationHistoryRepositoryLocal) (s s' : S)
        (evs : list event) (H : History) (h : string) :
  add_history settings os_makedirs template cid repo s = (evs, s', inr H) ->
  fetched repo cid = inr h ->
  contains "{" h = false ->
  contains "}" h = false ->
  formatted_history H = h /\
  template_with_history H = replace template "{history}" h (Some 1).
Proof.
  intros R Hh Ho Hc.
  apply add_history_returned in R as (h' & Hh' & ->).
  rewrite Hh in Hh'. injection Hh' as <-.
  cbn [formatted_history template_with_history].
  now rewrite (escape_braces_brace_free h Ho Hc).
Qed.

(** X3. Doubling the braces does not remove a placeholder from the history:
    a history that contains [{name}], for a brace-free [name], gives a
    [formatted_history] that still contains [{name}] (inside [{{name}}]). *)
Theorem placeholder_in_history_survives_escaping
        (template : string) (cid : UUID)
        (repo : ConversationHistoryRepositoryLocal) (s s' : S)
        (evs : list event) (H : History) (a name b : string) :
  add_history settings os_makedirs template cid repo s = (evs, s', inr H) ->
  fetched repo cid = inr (a ++ "{" ++ name ++ "}" ++ b) ->
  contains "{" name = false ->
  contains "}" name = false ->
  formatted_history H
  = escape_braces a ++ "{{" ++ name ++ "}}" ++ escape_braces b /\
  contains ("{" ++ name ++ "}") (formatted_history H) = true.
Proof.
  intros R Hh Ho Hc.
  apply add_history_returned in R as (h' & Hh' & ->).
  rewrite Hh in Hh'. injection Hh' as <-.
  cbv beta iota delta [formatted_history].
  assert (E : escape_braces (a ++ "{" ++ name ++ "}" ++ b)
              = escape_braces a ++ "{{" ++ name ++ "}}" ++ escape_braces b).
  { rewrite escape_braces_app.
    change ("{" ++ name ++ "}" ++ b) with (String "{" (name ++ "}" ++ b)).
    cbn [escape_braces Ascii.eqb Bool.eqb].
    rewrite escape_braces_app, (escape_braces_brace_free name Ho Hc).
    reflexivity. }
  split; [exact E|].
  etransitivity; [apply (f_equal (contains ("{" ++ name ++ "}"))); exact E|].
  replace (escape_braces a ++ "{{" ++ name ++ "}}" ++ escape_braces b)
    with ((escape_braces a ++ "{") ++ ("{" ++ name ++ "}")
          ++ ("}" ++ escape_braces b)).
  - apply contains_app.
  - rewrite !str_app_assoc. reflexivity.
Qed.
End OnAddHistory.
End Escaping.

(** ** Sequencing *)

Section Sequencing.
Context {S : Type}.

Lemma bind_run {A B} (m : M S A) (k : A -> M S B) (s : S) :
  bind m k s =
  match outcome (m s) with
  | inl e => (trace (m s), locals (m s), inl e)
  | inr a =>
      ((trace (m s) ++ trace (k a (locals (m s))))%list,
       locals (k a (locals (m s))), outcome (k a (locals (m s))))
  end.
Proof.
  unfold bind. destruct (m s) as [[evs s1] [e|a]]; cbn; [reflexivity|].
  now destruct (k a s1) as [[evs2 s2] o].
Qed.

Lemma trace_of {A} (evs : list event) (s : S) (o : raised + A) :
  trace (evs, s, o) = evs.
Proof. reflexivity. Qed.

Lemma locals_of {A} (evs : list event) (s : S) (o : raised + A) :
  locals (evs, s, o) = s.
Proof. reflexivity. Qed.

Lemma outcome_of {A} (evs : list event) (s : S) (o : raised + A) :
  outcome (evs, s, o) = o.
Proof. reflexivity. Qed.

Lemma all_ret {A} (p : event -> bool) (a : A) (s : S) :
  forallb p (trace (ret a s)) = true.
Proof. reflexivity. Qed.

Lemma all_call {A} (p : event -> bool) (ev : event) (r : exn + A) (s : S) :
  p ev = true -> forallb p (trace (call ev r s)) = true.
Proof. intros Hev. cbn. now rewrite Hev. Qed.

Lemma all_bind {A B} (p : event -> bool) (m : M S A) (k : A -> M S B) :
  (forall s, forallb p (trace (m s)) = true) ->
  (forall a s, forallb p (trace (k a s)) = true) ->
  forall s, forallb p (trace (bind m k s)) = true.
Proof.
  intros Hm Hk s. rewrite bind_run.
  destruct (outcome (m s)) as [e|a]; unfold trace at 1; cbn [fst].
  - apply Hm.
  - now rewrite forallb_app, Hm, Hk.
Qed.
End Sequencing.

Lemma yielded_none (t : list event) :
  forallb Observed.no_yield t = true ->
  on_user_message_streaming_use_case.yielded t = [].
Proof.
  induction t as [|ev t IH]; [reflexivity|].
  cbn [forallb]. intros H. apply andb_true_iff in H as [Hev Ht].
  destruct ev; try discriminate; cbn; auto.
Qed.

Lemma times_none (p q : event -> bool) (t : list event) :
  (forall ev, q ev = true -> p ev = false) ->
  forallb q t = true ->
  on_user_message_streaming_use_case.times p t = 0.
Proof.
  intros Hpq. unfold on_user_message_streaming_use_case.times.
  induction t as [|ev t IH]; [reflexivity|].
  cbn [forallb filter]. intros H. apply andb_true_iff in H as [Hev Ht].
  rewrite (Hpq ev Hev). auto.
Qed.

(** ** Failures while the prompt is put together *)

Section PromptFailures.
Import PyStr utils.
Variable settings : Settings.
Variable os_makedirs : string -> exn + unit.
Variable os_path_join : string -> string -> string.
Variable open_read : string -> exn + string.
Context {S : Type}.

#[local] Abbreviation conversations := (CONVERSATIONS_DIR settings).
#[local] Abbreviation turns := (PROMPT_HISTORY_INCLUDED_COUNT settings).
#[local] Abbreviation function_template :=
  (os_path_join (PROMPTS_DIRECTORY settings) "prompt_template_unity_function.txt").
#[local] Abbreviation unity_prompt :=
  (get_unity_communication_prompt settings os_makedirs os_path_join open_read).

(** X4. [add_history] stops at the first collaborator that raises and raises
    the same exception: when the directory cannot be made the history
    repository is not asked, and when the repository raises no [History] is
    built. *)
Theorem add_history_raises_what_its_collaborators_raise
        (template : string) (cid : UUID)
        (repo : ConversationHistoryRepositoryLocal) (s : S) (e : exn) :
  (os_makedirs conversations = inl e ->
   add_history settings os_makedirs template cid repo s
   = ([Makedirs conversations], s, inl e)) /\
  (os_makedirs conversations = inr tt ->
   get_prompt_history repo cid turns = inl e ->
   add_history settings os_makedirs template cid repo s
   = ([Makedirs conversations; GetPromptHistory cid turns], s, inl e)).
Proof.
  split.
  - intros Hmk. now rewrite add_history_run, Hmk.
  - intros Hmk Hh. now rewrite add_history_run, Hmk, Hh.
Qed.

(** X5. [get_unity_communication_prompt] returns [None] only with the
    companion URL unset or empty, and then without any action; with the URL
    set, a template file that cannot be read, or a failing [add_history],
    makes it raise that exception (after the file has been opened, and before
    the history is asked for when it is the file that fails). *)
Theorem unity_prompt_none_only_without_url
        (d : UserMessageInput) (repo : ConversationHistoryRepositoryLocal)
        (s : S) :
  (forall evs s',
      unity_prompt d repo s = (evs, s', inr None) ->
      url_truthy (UNITY_COPILOT_URL settings) = false /\ evs = [] /\ s' = s) /\
  (forall e,
      url_truthy (UNITY_COPILOT_URL settings) = true ->
      open_read function_template = inl e ->
      unity_prompt d repo s = ([OpenRead function_template], s, inl e)) /\
  (forall template e evs s',
      url_truthy (UNITY_COPILOT_URL settings) = true ->
      open_read function_template = inr template ->
      add_history settings os_makedirs template (chat_id d) repo s
      = (evs, s', inl e) ->
      unity_prompt d repo s = (OpenRead function_template :: evs, s', inl e)).
Proof.
  unfold get_unity_communication_prompt, get_function_system_message.
  split; [|split].
  - intros evs s'. destruct (url_truthy _).
    + rewrite bind_run. unfold call at 1 2 3 4. cbn [outcome trace locals fst snd].
      destruct (open_read function_template) as [e|template]; cbn [raising];
        [discriminate|].
      rewrite bind_run.
      destruct (outcome (add_history _ _ _ _ _ _)); discriminate.
    + unfold ret. intros E. injection E as <- <-. auto.
  - intros e -> Hfile. rewrite bind_run. unfold call.
    cbn [outcome trace locals fst snd]. now rewrite Hfile.
  - intros template e evs s' -> Hfile Hadd. rewrite bind_run. unfold call.
    cbn [outcome trace locals fst snd]. rewrite Hfile. cbn [raising].
    rewrite bind_run, Hadd. reflexivity.
Qed.
End PromptFailures.

(** ** The request as a whole *)

Section Requests.
Import on_user_message_streaming_use_case Observed.
Variable settings : Settings.
Variable os_makedirs : string -> exn + unit.
Variable os_path_join : string -> string -> string.
Variable open_read : string -> exn + string.
Variable json_loads : string -> exn + pyval.
Variable LoadingMessage_from_dict : pyval -> exn + LoadingMessage.
Variable datetime_now : nat -> float.
Variable get_gpt_result :
  UserMessageInput -> string -> list Document -> option string -> TaskRun.

#[local] Abbreviation on_item :=
  (on_callback_result json_loads LoadingMessage_from_dict).
#[local] Abbreviation try_block :=
  (try_body json_loads LoadingMessage_from_dict).
#[local] Abbreviation stream :=
  (streaming json_loads LoadingMessage_from_dict datetime_now).
#[local] Abbreviation before_streaming :=
  (prelude settings os_makedirs os_path_join open_read datetime_now get_gpt_result).
#[local] Abbreviation run :=
  (execute settings os_makedirs os_path_join open_read json_loads
           LoadingMessage_from_dict datetime_now get_gpt_result).
#[local] Abbreviation system_message_read :=
  (utils.get_system_message settings os_path_join open_read
                            (PROMPTS_DIRECTORY settings)).
#[local] Abbreviation context_of d sm store :=
  (_get_context settings d sm store).
#[local] Abbreviation unity_prompt :=
  (utils.get_unity_communication_prompt settings os_makedirs os_path_join
                                        open_read).
#[local] Abbreviation limit := (MAX_CONTEXT_DOCUMENTS_COUNT settings).

Lemma get_context_run {S} (d : UserMessageInput) (sm : string)
      (store : DocumentStore) (s : S) :
  context_of d sm store s =
  if PyStr.contains "{context}" sm
  then ([Find (message d) limit], s,
        raising (store_find store (message d) limit))
  else ([], s, inr []).
Proof.
  unfold _get_context. destruct (PyStr.contains "{context}" sm); [|reflexivity].
  cbn [List.length Z.of_nat]. rewrite Z.sub_0_r. unfold bind, call, ret.
  destruct (store_find _ _ _); reflexivity.
Qed.

Lemma system_message_read_run {S} (s : S) :
  exists path,
    system_message_read s = ([OpenRead path], s, raising (open_read path)).
Proof. unfold utils.get_system_message, call. eexists. reflexivity. Qed.

(** The companion prompt only opens a file, makes a directory and asks for
    the history. *)
Lemma unity_prompt_all {S} (p : event -> bool) (d : UserMessageInput)
      (repo : ConversationHistoryRepositoryLocal) :
  (forall path, p (OpenRead path) = true) ->
  (forall path, p (Makedirs path) = true) ->
  (forall cid n, p (GetPromptHistory cid n) = true) ->
  forall s : S, forallb p (trace (unity_prompt d repo s)) = true.
Proof.
  intros Hopen Hmk Hget.
  unfold utils.get_unity_communication_prompt, utils.get_function_system_message,
    utils.add_history.
  destruct (url_truthy _); [|intros s; reflexivity].
  repeat first
         [ apply all_bind; [|intros ?]
         | intros s; apply all_ret
         | intros s; apply all_call; auto ].
Qed.

Lemma prelude_all (p : event -> bool) (d : UserMessageInput)
      (store : DocumentStore) (repo : ConversationHistoryRepositoryLocal) :
  (forall path, p (OpenRead path) = true) ->
  (forall path, p (Makedirs path) = true) ->
  (forall cid n, p (GetPromptHistory cid n) = true) ->
  (forall q k, p (Find q k) = true) ->
  forall s, forallb p (trace (before_streaming d store repo s)) = true.
Proof.
  intros Hopen Hmk Hget Hfind. unfold prelude.
  apply all_bind.
  { intros s. destruct (system_message_read_run s) as [path ->].
    cbn. now rewrite Hopen. }
  intros sm. apply all_bind.
  { intros s. rewrite get_context_run.
    destruct (PyStr.contains "{context}" sm); cbn; [now rewrite Hfind | reflexivity]. }
  intros ctx. apply all_bind.
  { now apply unity_prompt_all. }
  intros prompt s. apply all_ret.
Qed.

(** X6. When putting the request together raises (the system message file,
    the document store, the function template or the history), [execute]
    raises that exception after the same actions: no chunk is yielded, no
    URL validation runs and no history is saved. *)
Theorem assembly_failure_yields_and_saves_nothing
        (d : UserMessageInput) (store : DocumentStore)
        (repo : ConversationHistoryRepositoryLocal) (s s1 : string)
        (evs : list event) (e : raised) :
  before_streaming d store repo s = (evs, s1, inl e) ->
  run d store repo s = (evs, s1, inl e) /\
  yielded evs = [] /\
  times is_validate_urls evs = 0 /\
  times is_save_history evs = 0.
Proof.
  intros Hpre.
  assert (Hcalm : forallb no_yield evs = true /\
                  forallb not_finalization evs = true).
  { split.
    - change evs with (trace (evs, s1, @inl raised (float * TaskRun) e)).
      rewrite <- Hpre. now apply prelude_all.
    - change evs with (trace (evs, s1, @inl raised (float * TaskRun) e)).
      rewrite <- Hpre. now apply prelude_all. }
  destruct Hcalm as [Hy Hf].
  split; [unfold execute, bind; now rewrite Hpre|].
  split; [now apply yielded_none|].
  split; apply (times_none _ not_finalization); try assumption;
    intros ev; destruct ev; cbn; congruence.
Qed.

Ltac project_runs :=
  repeat (progress (rewrite ?trace_of, ?locals_of, ?outcome_of;
                    cbv beta iota delta [raising])).

(** X7. A request asks the document store at most once; when the system
    message is read, it asks exactly once if the message contains
    [{context}] and not at all otherwise, whatever happens later. *)
Theorem document_store_asked_at_most_once
        (d : UserMessageInput) (store : DocumentStore)
        (repo : ConversationHistoryRepositoryLocal) (s : string) :
  times is_find (trace (run d store repo s)) <= 1 /\
  (forall evs s' sm,
      system_message_read s = (evs, s', inr sm) ->
      times is_find (trace (run d store repo s))
      = if PyStr.contains "{context}" sm then 1 else 0).
Proof.
  assert (Hstream : forall ts task s0,
             times is_find (trace (stream d ts task s0)) = 0).
  { intros ts task s0. rewrite streaming_run.
    destruct (try_body_frame json_loads LoadingMessage_from_dict d task "")
      as [Hy _].
    assert (H0 : times is_find (trace (try_block d task "")) = 0).
    { apply (times_none _ is_yield); [|exact Hy].
      intros ev; destruct ev; cbn; congruence. }
    destruct (outcome (try_block d task "")) as [[e|type_name str]|u];
      unfold trace at 1; cbn [fst]; rewrite !times_app, H0; reflexivity. }
  assert (Hunity : forall s0 : string, times is_find (trace (unity_prompt d repo s0)) = 0).
  { intros s0. apply (times_none _ no_find).
    - intros ev; destruct ev; cbn; congruence.
    - now apply unity_prompt_all. }
  assert (Hrest : forall sm (s0 : string),
             times is_find
               (trace (bind (context_of d sm store)
                            (fun context =>
                               bind (unity_prompt d repo)
                                    (fun prompt =>
                                       ret (datetime_now 0,
                                            get_gpt_result d sm context prompt)))
                            s0))
             = if PyStr.contains "{context}" sm then 1 else 0).
  { intros sm s0. rewrite bind_run, get_context_run.
    destruct (PyStr.contains "{context}" sm); project_runs.
    - destruct (store_find store (message d) limit) as [e|found];
        project_runs; [reflexivity|].
      rewrite times_app, bind_run.
      destruct (outcome (unity_prompt d repo s0));
        project_runs; rewrite ?times_app, Hunity; reflexivity.
    - rewrite times_app, bind_run.
      destruct (outcome (unity_prompt d repo s0));
        project_runs; rewrite ?times_app, Hunity; reflexivity. }
  assert (Hrun : forall path sm,
             open_read path = inr sm ->
             system_message_read s
             = ([OpenRead path], s, raising (open_read path)) ->
             times is_find (trace (run d store repo s))
             = if PyStr.contains "{context}" sm then 1 else 0).
  { intros path sm Hfile Hread. unfold execute, prelude.
    rewrite bind_run, bind_run, Hread, Hfile. project_runs.
    specialize (Hrest sm s).
    destruct (bind (context_of d sm store) _ s) as [[evs2 s2] [e|started]];
      rewrite ?trace_of in Hrest; project_runs.
    - rewrite times_app. exact Hrest.
    - rewrite !times_app, Hstream. cbn [times filter is_find List.length].
      rewrite Nat.add_0_r. exact Hrest. }
  destruct (system_message_read_run s) as [path Hread].
  split.
  - destruct (open_read path) as [e|sm] eqn:Hfile.
    + unfold execute, prelude. rewrite bind_run, bind_run, Hread.
      project_runs. cbn. auto.
    + rewrite (Hrun path sm Hfile); [|now rewrite Hfile].
      destruct (PyStr.contains "{context}" sm); auto.
  - intros evs s' sm Hsm. rewrite Hread in Hsm.
    destruct (open_read path) as [e|sm'] eqn:Hfile; [discriminate|].
    injection Hsm as _ _ ->.
    apply (Hrun path sm Hfile). now rewrite Hfile.
Qed.

(** X8. When the request is put together, the task is started with the system
    message that was read and with the context [_get_context] found (none
    without the [{context}] marker, the store's answer with it), and the
    request timestamp is the first clock reading. *)
Theorem task_gets_system_message_and_context
        (d : UserMessageInput) (store : DocumentStore)
        (repo : ConversationHistoryRepositoryLocal) (s s1 : string)
        (evs : list event) (ts : float) (task : TaskRun) :
  before_streaming d store repo s = (evs, s1, inr (ts, task)) ->
  ts = datetime_now 0 /\
  exists sm context prompt,
    outcome (system_message_read s) = inr sm /\
    task = get_gpt_result d sm context prompt /\
    (PyStr.contains "{context}" sm = false -> context = []) /\
    (PyStr.contains "{context}" sm = true ->
     store_find store (message d) limit = inr context).
Proof.
  unfold prelude. rewrite bind_run.
  destruct (system_message_read_run s) as [path Hread]. rewrite Hread.
  project_runs.
  destruct (open_read path) as [e|sm]; [discriminate|].
  rewrite bind_run, get_context_run.
  destruct (PyStr.contains "{context}" sm) eqn:Hmark; project_runs.
  - destruct (store_find store (message d) limit) as [e|found] eqn:Hfound;
      [discriminate|].
    rewrite bind_run.
    destruct (unity_prompt d repo s) as [[evs3 s3] [e|prompt]]; project_runs;
      [discriminate|].
    unfold ret. project_runs. intros E. injection E as _ _ <- <-.
    split; [reflexivity|]. exists sm, found, prompt.
    split; [reflexivity|]. split; [reflexivity|].
    split; intros H; first [reflexivity | congruence].
  - rewrite bind_run.
    destruct (unity_prompt d repo s) as [[evs3 s3] [e|prompt]]; project_runs;
      [discriminate|].
    unfold ret. project_runs. intros E. injection E as _ _ <- <-.
    split; [reflexivity|]. exists sm, [], prompt.
    split; [reflexivity|]. split; [reflexivity|].
    split; intros H; first [reflexivity | congruence].
Qed.

Lemma yielded_length (t : list event) :
  List.length (yielded t) <= List.length t.
Proof.
  induction t as [|ev t IH]; [auto|]. destruct ev; cbn; lia.
Qed.

Lemma loop_length (d : UserMessageInput) (items : list string)
      (ending : option raised) (s : string) :
  List.length (trace (async_for items ending (on_item d) s))
  <= 2 * List.length items.
Proof.
  induction items as [|x rest IH].
  - destruct ending; cbn; lia.
  - rewrite async_for_cons.
    destruct (on_callback_result_frame json_loads LoadingMessage_from_dict d x s)
      as (_ & _ & Hlen).
    destruct (outcome (on_item d x s)); rewrite trace_of.
    + cbn [List.length]. lia.
    + rewrite length_app. cbn [List.length]. lia.
Qed.

Lemma try_block_trace (d : UserMessageInput) (task : TaskRun) (s : string) :
  trace (try_block d task s)
  = trace (async_for (callback_items task) (callback_ending task) (on_item d) s).
Proof.
  rewrite try_body_run.
  destruct (outcome (async_for _ _ _ s)); [reflexivity|].
  destruct (task_result task); reflexivity.
Qed.

Lemma stream_yields (d : UserMessageInput) (ts : float) (task : TaskRun)
      (s0 : string) :
  yielded (trace (stream d ts task s0))
  = (yielded (trace (async_for (callback_items task) (callback_ending task)
                               (on_item d) "")) ++
     match outcome (try_block d task "") with
     | inl (Ordinary e) => [error_chunk d e]
     | _ => []
     end)%list.
Proof.
  rewrite streaming_run.
  destruct (outcome (try_block d task "")) as [[e|type_name str]|u];
    rewrite trace_of, !yielded_app, try_block_trace; cbn;
    now rewrite ?app_nil_r.
Qed.

(** X9. A request yields at most two chunks for each item of the channel and
    one more for an error. *)
Theorem chunks_bounded_by_items
        (d : UserMessageInput) (ts : float) (task : TaskRun) (s0 : string) :
  List.length (yielded (trace (stream d ts task s0)))
  <= 2 * List.length (callback_items task) + 1.
Proof.
  rewrite stream_yields, length_app.
  pose proof (yielded_length
                (trace (async_for (callback_items task) (callback_ending task)
                                  (on_item d) ""))) as Hy.
  pose proof (loop_length d (callback_items task) (callback_ending task) "") as Hl.
  destruct (outcome (try_block d task "")) as [[e|type_name str]|u];
    cbn [List.length]; lia.
Qed.

Lemma item_chunks_plain (d : UserMessageInput) (raw : string) (s : string) :
  Forall (fun c => chunk_chat_id c = chat_id d /\ sources c = [] /\ error c = None)
         (yielded (trace (on_item d raw s))).
Proof.
  rewrite on_callback_result_run.
  destruct (json_loads raw) as [e|parsed]; [constructor|].
  destruct (py_get parsed "token") as [e|token]; [constructor|].
  destruct (py_get parsed "loading_message") as [e|loading];
    destruct (truthy token); try destruct (truthy loading);
    try destruct (LoadingMessage_from_dict loading);
    cbn; repeat constructor.
Qed.

Lemma loop_chunks_plain (d : UserMessageInput) (items : list string)
      (ending : option raised) (s : string) :
  Forall (fun c => chunk_chat_id c = chat_id d /\ sources c = [] /\ error c = None)
         (yielded (trace (async_for items ending (on_item d) s))).
Proof.
  induction items as [|x rest IH].
  - destruct ending; constructor.
  - rewrite async_for_cons.
    destruct (outcome (on_item d x s)); rewrite trace_of.
    + apply item_chunks_plain.
    + rewrite yielded_app. apply Forall_app. split; [apply item_chunks_plain | exact IH].
Qed.

(** X10. Every chunk of a request carries the chat id of the input and no
    sources, and only the last chunk can carry an error. *)
Theorem chunks_carry_chat_id_and_error_only_last
        (d : UserMessageInput) (ts : float) (task : TaskRun) (s0 : string) :
  Forall (fun c => chunk_chat_id c = chat_id d /\ sources c = [])
         (yielded (trace (stream d ts task s0))) /\
  (forall cs c,
      yielded (trace (stream d ts task s0)) = (cs ++ [c])%list ->
      Forall (fun c' => error c' = None) cs).
Proof.
  rewrite stream_yields.
  pose proof (loop_chunks_plain d (callback_items task) (callback_ending task) "")
    as Hplain.
  set (loop_chunks := yielded (trace (async_for _ _ _ ""))) in *.
  split.
  - apply Forall_app. split.
    + eapply Forall_impl; [|exact Hplain]. intros c (Hid & Hsrc & _). now split.
    + destruct (outcome (try_block d task "")) as [[e|type_name str]|u];
        repeat constructor.
  - intros cs c Hsplit.
    assert (Hnone : Forall (fun c' => error c' = None) loop_chunks).
    { eapply Forall_impl; [|exact Hplain]. now intros c' (_ & _ & Herr). }
    destruct (outcome (try_block d task "")) as [[e|type_name str]|u].
    + apply app_inj_tail in Hsplit as [<- _]. exact Hnone.
    + rewrite app_nil_r in Hsplit. rewrite Hsplit in Hnone.
      now apply Forall_app in Hnone.
    + rewrite app_nil_r in Hsplit. rewrite Hsplit in Hnone.
      now apply Forall_app in Hnone.
Qed.

Lemma loop_fails_after_prefix (d : UserMessageInput) (done rest : list string)
      (x : string) (ending : option raised) (s : string) (e : exn) :
  outcome (async_for done None (on_item d) s) = inr tt ->
  outcome (on_item d x s) = inl e ->
  async_for (done ++ x :: rest) ending (on_item d) s
  = ((trace (async_for done None (on_item d) s) ++ trace (on_item d x s))%list,
     s, inl e).
Proof.
  intros Hdone Hx. induction done as [|y done IH].
  - cbn [app]. rewrite async_for_cons, Hx. reflexivity.
  - cbn [app]. rewrite !async_for_cons. rewrite async_for_cons in Hdone.
    destruct (outcome (on_item d y s)); rewrite ?outcome_of in Hdone;
      [discriminate|].
    rewrite IH by exact Hdone. rewrite !trace_of, locals_of, outcome_of.
    now rewrite app_assoc.
Qed.

(** X11. Once handling an item raises, the items after it, the way the
    channel ends and the result of the task play no part: two tasks whose
    items agree up to such an item give the same run. *)
Theorem nothing_after_a_failing_item
        (d : UserMessageInput) (ts : float) (task task' : TaskRun) (s0 : string)
        (done rest rest' : list string) (x : string) (e : exn) :
  callback_items task = (done ++ x :: rest)%list ->
  callback_items task' = (done ++ x :: rest')%list ->
  outcome (async_for done None (on_item d) "") = inr tt ->
  outcome (on_item d x "") = inl e ->
  stream d ts task s0 = stream d ts task' s0 /\
  yielded (trace (stream d ts task s0))
  = (yielded (trace (async_for done None (on_item d) "")) ++
     yielded (trace (on_item d x "")) ++ [error_chunk d e])%list.
Proof.
  intros Hitems Hitems' Hdone Hx.
  assert (Hbody : forall t r,
             callback_items t = (done ++ x :: r)%list ->
             try_block d t ""
             = ((trace (async_for done None (on_item d) "") ++
                 trace (on_item d x ""))%list, "", inl e)).
  { intros t r Ht. rewrite try_body_run, Ht.
    rewrite (loop_fails_after_prefix d done r x (callback_ending t) "" e Hdone Hx).
    reflexivity. }
  split.
  - rewrite !streaming_run, (Hbody task rest Hitems), (Hbody task' rest' Hitems').
    reflexivity.
  - rewrite stream_yields, (Hbody task rest Hitems), Hitems.
    rewrite (loop_fails_after_prefix d done rest x (callback_ending task) "" e
                                     Hdone Hx).
    rewrite trace_of, outcome_of, yielded_app. now rewrite app_assoc.
Qed.

(** X12. A token chunk that was yielded stays yielded when the loading
    message of the same item is rejected by [from_dict]: the error chunk
    comes right after it. *)
Theorem token_chunk_before_rejected_loading_message
        (d : UserMessageInput) (raw : string)
        (fields : list (string * pyval)) (s : string) (e : exn) :
  json_loads raw = inr (PDict fields) ->
  truthy (dict_get fields "token") = true ->
  truthy (dict_get fields "loading_message") = true ->
  LoadingMessage_from_dict (dict_get fields "loading_message") = inl e ->
  on_item d raw s
  = ([Yield (token_chunk d (dict_get fields "token"))], s, inl e) /\
  (forall ts task s0 rest,
      callback_items task = raw :: rest ->
      yielded (trace (stream d ts task s0))
      = [token_chunk d (dict_get fields "token"); error_chunk d e]).
Proof.
  intros Hraw Ht Hl Hrej.
  assert (Hitem : forall s', on_item d raw s'
                             = ([Yield (token_chunk d (dict_get fields "token"))],
                                s', inl e)).
  { intros s'. rewrite on_callback_result_run, Hraw. cbn [py_get].
    now rewrite Ht, Hl, Hrej. }
  split; [apply Hitem|].
  intros ts task s0 rest Hitems.
  rewrite stream_yields, try_body_run, Hitems, async_for_cons, Hitem.
  reflexivity.
Qed.

(** X13. An item that is JSON but not an object (a list, a string, a number,
    [null]) ends the stream like an exception: nothing is yielded for it, and
    the error chunk names [AttributeError]; an item that is not JSON gives
    the error chunk of what [json.loads] raised. *)
Theorem item_that_is_no_object_ends_stream
        (d : UserMessageInput) (ts : float) (task : TaskRun) (s0 : string)
        (raw : string) (rest : list string) :
  callback_items task = raw :: rest ->
  (forall v,
      json_loads raw = inr v -> is_dict v = false ->
      yielded (trace (stream d ts task s0))
      = [{| chunk_chat_id := chat_id d; text := PStr ""; sources := [];
            loading_message := None;
            error := Some "OpenAI error: AttributeError" |}]) /\
  (forall e,
      json_loads raw = inl e ->
      yielded (trace (stream d ts task s0)) = [error_chunk d e]).
Proof.
  intros Hitems. split.
  - intros v Hraw Hv.
    rewrite stream_yields, try_body_run, Hitems, async_for_cons,
      on_callback_result_run, Hraw.
    destruct v; try discriminate; reflexivity.
  - intros e Hraw.
    rewrite stream_yields, try_body_run, Hitems, async_for_cons,
      on_callback_result_run, Hraw.
    reflexivity.
Qed.

(** X14. With a channel that delivers nothing, no token chunk is yielded and
    the history is still saved once: with the text of the task when the
    channel ends and the task returns; with the empty text after the one
    error chunk when the channel or the task raises an instance of
    [Exception]; and with the empty text and no chunk at all, the exception
    going on to the caller, when what is raised there is outside
    [Exception]. *)
Theorem empty_channel_still_saves
        (d : UserMessageInput) (ts : float) (task : TaskRun) (s0 : string) :
  callback_items task = [] ->
  (forall r,
      callback_ending task = None -> task_result task = inr r ->
      stream d ts task s0 = (finalization d ts (datetime_now 1) r, r, inr tt)) /\
  (forall e : exn,
      callback_ending task = Some e \/
      (callback_ending task = None /\ task_result task = inl e) ->
      trace (stream d ts task s0)
      = ([LogError ("Stream error: " ++ exn_str e); Yield (error_chunk d e)] ++
         finalization d ts (datetime_now 1) "")%list /\
      outcome (stream d ts task s0) = inr tt) /\
  (forall type_name str,
      callback_ending task = Some (BaseOnly type_name str) \/
      (callback_ending task = None /\
       task_result task = inl (BaseOnly type_name str)) ->
      stream d ts task s0
      = (finalization d ts (datetime_now 1) "", "",
         inl (BaseOnly type_name str))).
Proof.
  intros Hitems. split; [|split].
  - intros r Hend Hres.
    rewrite streaming_run, try_body_run, Hitems, Hend, Hres. reflexivity.
  - intros e [Hend | [Hend Hres]];
      rewrite streaming_run, try_body_run, Hitems, Hend;
      [split; reflexivity|].
    rewrite Hres. split; reflexivity.
  - intros type_name str [Hend | [Hend Hres]];
      rewrite streaming_run, try_body_run, Hitems, Hend; [reflexivity|].
    rewrite Hres. reflexivity.
Qed.
End Requests.

(** ** The further properties on concrete runs *)

Section FurtherRuns.
Import on_user_message_streaming_use_case Observed.

#[local] Abbreviation sample_add_history template cid repo :=
  (utils.add_history Samples.settings_with_unity Samples.os_makedirs
                     template cid repo tt).

Lemma formatted_history_determines_history_witness :
  get_prompt_history Samples.history_with_braces 7%N 5%Z
  = get_prompt_history Samples.history_with_braces 9%N 5%Z.
Proof.
  eapply (formatted_history_determines_history
            Samples.settings_with_unity Samples.os_makedirs (S := unit)
            "So far: {history}" "{history}" 7%N 9%N
            Samples.history_with_braces Samples.history_with_braces tt tt);
    reflexivity.
Defined.

Lemma history_without_braces_unchanged_witness :
  outcome (sample_add_history "So far: {history}!" 7%N MoreSamples.history_plain)
  = inr {| utils.template_with_history := "So far: User: hi!";
           utils.formatted_history := "User: hi" |}.
Proof.
  edestruct (history_without_braces_unchanged
               Samples.settings_with_unity Samples.os_makedirs (S := unit)
               "So far: {history}!" 7%N MoreSamples.history_plain tt)
    as [Hf Ht]; [reflexivity | reflexivity | reflexivity | reflexivity |].
  reflexivity.
Defined.

Lemma placeholder_in_history_survives_escaping_witness :
  PyStr.contains "{question}" "User: what is {{question}}?" = true.
Proof.
  destruct (placeholder_in_history_survives_escaping
              Samples.settings_with_unity Samples.os_makedirs (S := unit)
              "So far: {history}" 7%N MoreSamples.history_with_placeholder tt tt
              [Makedirs "conversations"; GetPromptHistory 7%N 5%Z]
              {| utils.template_with_history :=
                   "So far: User: what is {{question}}?";
                 utils.formatted_history := "User: what is {{question}}?" |}
              "User: what is " "question" "?"
              eq_refl eq_refl eq_refl eq_refl)
    as [Hf Hc].
  exact Hc.
Defined.

Lemma add_history_raises_what_its_collaborators_raise_witness :
  utils.add_history Samples.settings_with_unity MoreSamples.os_makedirs_denied
                    "So far: {history}" 7%N Samples.history_with_braces tt
  = ([Makedirs "conversations"], tt, inl (Exn "PermissionError" "[Errno 13] Permission denied: 'conversations'")) /\
  sample_add_history "So far: {history}" 7%N MoreSamples.history_unreadable
  = ([Makedirs "conversations"; GetPromptHistory 7%N 5%Z], tt,
     inl (Exn "OSError" "history")).
Proof.
  split.
  - apply (add_history_raises_what_its_collaborators_raise
             Samples.settings_with_unity MoreSamples.os_makedirs_denied
             (S := unit)). reflexivity.
  - apply (add_history_raises_what_its_collaborators_raise
             Samples.settings_with_unity Samples.os_makedirs (S := unit));
      reflexivity.
Defined.

Lemma unity_prompt_none_only_without_url_witness :
  url_truthy (UNITY_COPILOT_URL Samples.settings_without_unity) = false /\
  utils.get_unity_communication_prompt
    Samples.settings_with_unity Samples.os_makedirs Samples.os_path_join
    MoreSamples.open_read_missing Samples.input_hello
    Samples.history_with_braces tt
  = ([OpenRead "prompts/prompt_template_unity_function.txt"], tt,
     inl (Exn "FileNotFoundError"
              "[Errno 2] No such file or directory: 'prompts/prompt_template_unity_function.txt'")).
Proof.
  split.
  - destruct (unity_prompt_none_only_without_url
                Samples.settings_without_unity Samples.os_makedirs
                Samples.os_path_join Samples.open_read (S := unit)
                Samples.input_hello Samples.history_with_braces tt)
      as (Hnone & _).
    now destruct (Hnone [] tt eq_refl).
  - apply (unity_prompt_none_only_without_url
             Samples.settings_with_unity Samples.os_makedirs
             Samples.os_path_join MoreSamples.open_read_missing (S := unit));
      reflexivity.
Defined.

#[local] Abbreviation execute_with open_read settings task :=
  (execute settings Samples.os_makedirs Samples.os_path_join
           open_read Samples.json_loads Samples.LoadingMessage_from_dict
           Samples.datetime_now (fun _ _ _ _ => task)
           Samples.input_hello Samples.document_store
           Samples.history_with_braces "").
#[local] Abbreviation stream_of task :=
  (streaming Samples.json_loads Samples.LoadingMessage_from_dict
             Samples.datetime_now Samples.input_hello
             (Samples.datetime_now 0) task "").

Lemma assembly_failure_yields_and_saves_nothing_witness :
  execute_with MoreSamples.open_read_missing Samples.settings_with_unity
               Samples.run_hi_there
  = ([OpenRead "prompts/prompt_template_with_unity.txt"], "",
     inl (Exn "FileNotFoundError"
              "[Errno 2] No such file or directory: 'prompts/prompt_template_with_unity.txt'")).
Proof.
  apply (assembly_failure_yields_and_saves_nothing
           Samples.settings_with_unity Samples.os_makedirs Samples.os_path_join
           MoreSamples.open_read_missing Samples.json_loads
           Samples.LoadingMessage_from_dict Samples.datetime_now
           (fun _ _ _ _ => Samples.run_hi_there)
           Samples.input_hello Samples.document_store
           Samples.history_with_braces "").
  reflexivity.
Defined.

Lemma document_store_asked_at_most_once_witness :
  times is_find
        (trace (execute_with Samples.open_read Samples.settings_without_unity
                             Samples.run_hi_there)) = 1 /\
  times is_find
        (trace (execute_with Samples.open_read Samples.settings_with_unity
                             Samples.run_hi_there)) = 0.
Proof.
  split.
  - destruct (document_store_asked_at_most_once
                Samples.settings_without_unity Samples.os_makedirs
                Samples.os_path_join Samples.open_read Samples.json_loads
                Samples.LoadingMessage_from_dict Samples.datetime_now
                (fun _ _ _ _ => Samples.run_hi_there)
                Samples.input_hello Samples.document_store
                Samples.history_with_braces "") as [_ Hexact].
    apply (Hexact [OpenRead "prompts/prompt_template.txt"] ""
                  "Use {context}. So far: {history}").
    reflexivity.
  - destruct (document_store_asked_at_most_once
                Samples.settings_with_unity Samples.os_makedirs
                Samples.os_path_join Samples.open_read Samples.json_loads
                Samples.LoadingMessage_from_dict Samples.datetime_now
                (fun _ _ _ _ => Samples.run_hi_there)
                Samples.input_hello Samples.document_store
                Samples.history_with_braces "") as [_ Hexact].
    apply (Hexact [OpenRead "prompts/prompt_template_with_unity.txt"] ""
                  "Unity. So far: {history}").
    reflexivity.
Defined.

Lemma task_gets_system_message_and_context_witness :
  exists (sm : string) (context : list Document),
    sm = "Use {context}. So far: {history}" /\
    context = [ {| page_content := "first"; metadata := PNone |};
                {| page_content := "second"; metadata := PNone |} ].
Proof.
  edestruct (task_gets_system_message_and_context
               Samples.settings_without_unity Samples.os_makedirs
               Samples.os_path_join Samples.open_read Samples.datetime_now
               (fun _ _ _ _ => Samples.run_hi_there)
               Samples.input_hello Samples.document_store
               Samples.history_with_braces "")
    as (_ & sm & context & prompt & Hsm & Htask & _ & Hfound);
    [reflexivity|].
  exists sm, context.
  injection Hsm as <-.
  specialize (Hfound eq_refl). injection Hfound as <-.
  split; reflexivity.
Defined.

Lemma chunks_carry_chat_id_and_error_only_last_witness :
  Forall (fun c => error c = None)
         [token_chunk Samples.input_hello (PStr "Hi")].
Proof.
  destruct (chunks_carry_chat_id_and_error_only_last
              Samples.json_loads Samples.LoadingMessage_from_dict
              Samples.datetime_now Samples.input_hello (Samples.datetime_now 0)
              Samples.run_channel_breaks "") as [_ Hlast].
  apply (Hlast [token_chunk Samples.input_hello (PStr "Hi")]
               (error_chunk Samples.input_hello
                            (Exn "APIError" "connection lost"))).
  reflexivity.
Defined.

Lemma nothing_after_a_failing_item_witness :
  stream_of Samples.run_bad_item = stream_of MoreSamples.run_bad_item_short /\
  yielded (trace (stream_of Samples.run_bad_item))
  = [token_chunk Samples.input_hello (PStr "Hi");
     error_chunk Samples.input_hello
       (Exn "JSONDecodeError" "Expecting value: line 1 column 1 (char 0)")].
Proof.
  destruct (nothing_after_a_failing_item
              Samples.json_loads Samples.LoadingMessage_from_dict
              Samples.datetime_now Samples.input_hello (Samples.datetime_now 0)
              Samples.run_bad_item MoreSamples.run_bad_item_short ""
              [Samples.item_token "Hi"] [Samples.item_token " there"] []
              "oops" (Exn "JSONDecodeError" "Expecting value: line 1 column 1 (char 0)")
              eq_refl eq_refl eq_refl eq_refl) as [Hsame Hy].
  split; [exact Hsame|]. rewrite Hy. reflexivity.
Defined.

Lemma token_chunk_before_rejected_loading_message_witness :
  yielded (trace (streaming Samples.json_loads
                            MoreSamples.LoadingMessage_from_dict_strict
                            Samples.datetime_now Samples.input_hello
                            (Samples.datetime_now 0)
                            MoreSamples.run_rejected_loading ""))
  = [token_chunk Samples.input_hello (PStr "Hi");
     error_chunk Samples.input_hello (Exn "KeyError" "'status'")].
Proof.
  destruct (token_chunk_before_rejected_loading_message
              Samples.json_loads MoreSamples.LoadingMessage_from_dict_strict
              Samples.datetime_now Samples.input_hello
              (Samples.item_token_and_loading "Hi" "Thinking")
              [("token", PStr "Hi");
               ("loading_message", PDict [("message", PStr "Thinking")])]
              "" (Exn "KeyError" "'status'") eq_refl eq_refl eq_refl eq_refl)
    as [_ Hstream].
  apply (Hstream (Samples.datetime_now 0) MoreSamples.run_rejected_loading "" []).
  reflexivity.
Defined.

Lemma item_that_is_no_object_ends_stream_witness :
  yielded (trace (stream_of MoreSamples.run_list_item))
  = [error_chunk Samples.input_hello
       (Exn "AttributeError" "'list' object has no attribute 'get'")] /\
  yielded (trace (stream_of
                    {| callback_items := ["oops"];
                       callback_ending := None;
                       task_result := inr "Hi" |}))
  = [error_chunk Samples.input_hello (Exn "JSONDecodeError" "Expecting value: line 1 column 1 (char 0)")].
Proof.
  split.
  - destruct (item_that_is_no_object_ends_stream
                Samples.json_loads Samples.LoadingMessage_from_dict
                Samples.datetime_now Samples.input_hello (Samples.datetime_now 0)
                MoreSamples.run_list_item "" "[]" [Samples.item_token "Hi"]
                eq_refl) as [Hlist _].
    apply (Hlist (PList [])); reflexivity.
  - destruct (item_that_is_no_object_ends_stream
                Samples.json_loads Samples.LoadingMessage_from_dict
                Samples.datetime_now Samples.input_hello (Samples.datetime_now 0)
                {| callback_items := ["oops"];
                   callback_ending := None;
                   task_result := inr "Hi" |} "" "oops" [] eq_refl)
      as [_ Hbad].
    apply Hbad. reflexivity.
Defined.

Lemma empty_channel_still_saves_witness :
  stream_of MoreSamples.run_silent
  = ([ValidateUrls "Hi there" 7%N;
      SaveHistory "hello" "Hi there" 1700000000%float 1700000003%float 7%N 8%N],
     "Hi there", inr tt) /\
  stream_of {| callback_items := [];
               callback_ending := Some (BaseOnly "CancelledError" "");
               task_result := inr "never awaited" |}
  = ([ValidateUrls "" 7%N;
      SaveHistory "hello" "" 1700000000%float 1700000003%float 7%N 8%N],
     "", inl (BaseOnly "CancelledError" "")).
Proof.
  split.
  - destruct (empty_channel_still_saves
                Samples.json_loads Samples.LoadingMessage_from_dict
                Samples.datetime_now Samples.input_hello (Samples.datetime_now 0)
                MoreSamples.run_silent "" eq_refl) as [Hclean _].
    apply Hclean; reflexivity.
  - destruct (empty_channel_still_saves
                Samples.json_loads Samples.LoadingMessage_from_dict
                Samples.datetime_now Samples.input_hello (Samples.datetime_now 0)
                {| callback_items := [];
                   callback_ending := Some (BaseOnly "CancelledError" "");
                   task_result := inr "never awaited" |} "" eq_refl)
      as (_ & _ & Hbase).
    apply Hbase. left. reflexivity.
Defined.

(** A consumer cancelled while it awaits the task: [asyncio.CancelledError]
    is no instance of [Exception], so no error chunk is yielded and the
    exception leaves the generator, after the finalization. *)
Lemma cancelled_await_yields_no_error_chunk :
  stream_of MoreSamples.run_cancelled
  = ([Yield (token_chunk Samples.input_hello (PStr "Hi"));
      ValidateUrls "" 7%N;
      SaveHistory "hello" "" 1700000000%float 1700000003%float 7%N 8%N],
     "", inl (BaseOnly "CancelledError" "")) /\
  yielded (trace (stream_of MoreSamples.run_cancelled))
  = [token_chunk Samples.input_hello (PStr "Hi")] /\
  outcome (stream_of MoreSamples.run_cancelled) <> inr tt.
Proof.
  repeat split. discriminate.
Qed.


Example empty_channel_cancelled :
  streaming Samples.json_loads Samples.LoadingMessage_from_dict
            Samples.datetime_now Samples.input_hello (Samples.datetime_now 0)
            {| callback_items := [];
               callback_ending := Some (BaseOnly "CancelledError" "");
               task_result := inr "never awaited" |} ""
  = ([ValidateUrls "" 7%N;
      SaveHistory "hello" "" 1700000000%float 1700000003%float 7%N 8%N],
     "", inl (BaseOnly "CancelledError" "")).
Proof. reflexivity. Qed.
End FurtherRuns.
